(** * Quota-gated chat sessions and the job-fit endpoint

  A shallow embedding of [src/app/actions/create-session.ts] (the server
  actions [createSession], [getMessageUsage], [getCurrentPlan] with their
  helpers [getUserPlan] and [getMessageLimit]) and of the job-fit route
  handler [POST] that lives in the same source file.

  JavaScript values are embedded as a small untyped value type, exceptions
  as an explicit result type, and the awaited external calls (identity
  provider, usage tracker, HTTP) as state-passing computations whose
  outcomes are supplied by an environment record. *)

From Stdlib Require Import ZArith List Bool Ascii Lia.
From Stdlib Require QArith.
From stdpp Require Import base option list gmap strings pretty.

#[local] Set Warnings "-register-all".

Open Scope Z_scope.
Open Scope string_scope.
Open Scope list_scope.

(** ** JavaScript values, exceptions and results *)

Module Js.

(** The values that cross the boundaries of the program: what the identity
    provider, the request body and the HTTP responses deliver.  Numbers are
    the integral ones; objects are property lists read front to back. *)
Inductive JsVal : Type :=
| JUndefined
| JNull
| JBool (b : bool)
| JNum (n : Z)
| JStr (s : string)
| JArr (elems : list JsVal)
| JObj (props : list (string * JsVal)).

(** A thrown value: the constructor name of the error object and its
    message.  [new Error(m)] is [Error m]. *)
Record JsExn : Type := MkExn { exn_name : string; exn_message : string }.

Definition Error (message : string) : JsExn := MkExn "Error" message.
Definition TypeError (message : string) : JsExn := MkExn "TypeError" message.
Definition SyntaxError (message : string) : JsExn := MkExn "SyntaxError" message.

(** Result of evaluating an expression or awaiting a promise. *)
Inductive Outcome (A : Type) : Type :=
| Returns (a : A)
| Throws (e : JsExn).
Arguments Returns {A} a.
Arguments Throws {A} e.

#[export] Instance Outcome_ret : MRet Outcome := fun A a => Returns a.
#[export] Instance Outcome_bind : MBind Outcome := fun A B f m =>
  match m with
  | Returns a => f a
  | Throws e => Throws e
  end.

(** [try { body } catch (error) { handler }] *)
Definition try_catch {A} (body : Outcome A) (handler : JsExn -> Outcome A) : Outcome A :=
  match body with
  | Returns a => Returns a
  | Throws e => handler e
  end.

Definition nullish (v : JsVal) : bool :=
  match v with
  | JUndefined | JNull => true
  | _ => false
  end.

(** ToBoolean *)
Definition truthy (v : JsVal) : bool :=
  match v with
  | JUndefined | JNull => false
  | JBool b => b
  | JNum n => negb (Z.eqb n 0)
  | JStr s => negb (String.eqb s "")
  | JArr _ | JObj _ => true
  end.

(** Truthiness of a [string | null | undefined]. *)
Definition truthy_str (o : option string) : bool :=
  match o with
  | Some s => negb (String.eqb s "")
  | None => false
  end.

Fixpoint lookup_prop (k : string) (props : list (string * JsVal)) : JsVal :=
  match props with
  | [] => JUndefined
  | (k', v) :: rest => if String.eqb k k' then v else lookup_prop k rest
  end.

(** [v.k] for a property name [k] that is not a built-in of strings,
    numbers, booleans or arrays (apart from [length]): reading from
    [undefined] or [null] throws, primitives and arrays have no such
    property. *)
Definition get (v : JsVal) (k : string) : Outcome JsVal :=
  match v with
  | JUndefined => Throws (TypeError ("Cannot read properties of undefined (reading '" +:+ k +:+ "')"))
  | JNull => Throws (TypeError ("Cannot read properties of null (reading '" +:+ k +:+ "')"))
  | JObj props => Returns (lookup_prop k props)
  | JArr elems => Returns (if String.eqb k "length" then JNum (Z.of_nat (length elems)) else JUndefined)
  | JStr s => Returns (if String.eqb k "length" then JNum (Z.of_nat (String.length s)) else JUndefined)
  | JBool _ | JNum _ => Returns JUndefined
  end.

(** [v?.k] *)
Definition get_opt (v : JsVal) (k : string) : Outcome JsVal :=
  if nullish v then Returns JUndefined else get v k.

(** [v[0]] *)
Definition get_first (v : JsVal) : Outcome JsVal :=
  match v with
  | JUndefined => Throws (TypeError "Cannot read properties of undefined (reading '0')")
  | JNull => Throws (TypeError "Cannot read properties of null (reading '0')")
  | JObj props => Returns (lookup_prop "0" props)
  | JArr elems => Returns (match elems with x :: _ => x | [] => JUndefined end)
  | JStr s => Returns (match s with String c _ => JStr (String c EmptyString) | EmptyString => JUndefined end)
  | JBool _ | JNum _ => Returns JUndefined
  end.

(** [v === "s"] *)
Definition strict_eq_str (v : JsVal) (s : string) : bool :=
  match v with
  | JStr s' => String.eqb s' s
  | _ => false
  end.

(** [Array.prototype.some]: elements are visited in order and the visit
    stops at the first one the callback accepts; an exception of the
    callback ends the visit. *)
Fixpoint array_some (callback : JsVal -> Outcome bool) (elems : list JsVal) : Outcome bool :=
  match elems with
  | [] => Returns false
  | x :: rest =>
      b ← callback x;
      if b : bool then Returns true else array_some callback rest
  end.

(** [v.some(callback)]: only arrays carry the method. *)
Definition some (v : JsVal) (callback : JsVal -> Outcome bool) : Outcome bool :=
  match v with
  | JArr elems => array_some callback elems
  | JUndefined => Throws (TypeError "Cannot read properties of undefined (reading 'some')")
  | JNull => Throws (TypeError "Cannot read properties of null (reading 'some')")
  | _ => Throws (TypeError "subscriptions.some is not a function")
  end.

(** Template-literal conversion of an integral number. *)
Definition num_to_string (n : Z) : string := pretty n.

End Js.
Import Js.

(** ** Plans and the quota policy *)

Inductive Plan : Type := free | recruiter.

#[export] Instance Plan_eq_dec : EqDecision Plan.
Proof. solve_decision. Defined.

(** [getMessageLimit(isGuest, plan)] *)
Definition getMessageLimit (isGuest : bool) (plan : Plan) : Z :=
  if isGuest then 3
  else match plan with
       | recruiter => 20
       | free => 5
       end.

(** ** Plan resolution *)

Section PlanResolver.

(** [(await clerkClient()).users.getUser(userId)]: the provider either
    delivers a user value or the lookup throws. *)
Variable getUser : string -> Outcome JsVal.

(** The callback of [subscriptions.some]:
    [membership.organization?.publicMetadata?.plan === "recruiter"]. *)
Definition membership_is_recruiter (membership : JsVal) : Outcome bool :=
  organization ← get membership "organization";
  publicMetadata ← get_opt organization "publicMetadata";
  plan ← get_opt publicMetadata "plan";
  mret (strict_eq_str plan "recruiter").

(** The body of the [try] block of [getUserPlan]. *)
Definition getUserPlan_try (userId : string) : Outcome Plan :=
  user ← getUser userId;
  organizationMemberships ← get user "organizationMemberships";
  let subscriptions :=
    if truthy organizationMemberships then organizationMemberships else JArr [] in
  hasRecruiterPlan ← some subscriptions membership_is_recruiter;
  if hasRecruiterPlan : bool then mret recruiter
  else
    publicMetadata ← get user "publicMetadata";
    plan ← get_opt publicMetadata "subscriptionPlan";
    if strict_eq_str plan "recruiter" then mret recruiter
    else
      privateMetadata ← get user "privateMetadata";
      privateMetadataPlan ← get_opt privateMetadata "subscriptionPlan";
      if strict_eq_str privateMetadataPlan "recruiter" then mret recruiter
      else mret free.

(** [getUserPlan(userId)]; the handler logs the error and returns free. *)
Definition getUserPlan (userId : string) : Outcome Plan :=
  try_catch (getUserPlan_try userId) (fun error => Returns free).

End PlanResolver.

(** ** Awaited calls that share the usage store *)

(** An awaited call: it runs against the state of the usage store and either
    delivers a value or throws. *)
Definition Async (S A : Type) : Type := S -> Outcome A * S.

#[export] Instance Async_ret {S} : MRet (Async S) := fun A a s => (Returns a, s).
#[export] Instance Async_bind {S} : MBind (Async S) := fun A B f m s =>
  match m s with
  | (Returns a, s') => f a s'
  | (Throws e, s') => (Throws e, s')
  end.

(** A call that does not touch the usage store. *)
Definition await {S A} (o : Outcome A) : Async S A := fun s => (o, s).

(** [throw e] *)
Definition throw {S A} (e : JsExn) : Async S A := fun s => (Throws e, s).

(** The object [hasRemainingMessages] resolves to. *)
Record Usage : Type := MkUsage { allowed : bool; remaining : Z; limit : Z }.

(** ** The usage tracker *)

Module MessageTracking.

(** The store of usage records, keyed by identity and calendar day. *)
Abbreviation Store := (gmap (string * nat) Z).

(** The count recorded under a key; a key never written counts zero. *)
Definition usage_count (store : Store) (identity : string) (day : nat) : Z :=
  default 0 (store !! (identity, day)).

(** Modelled from the spec: [hasRemainingMessages] of [lib/message-tracking]
    is imported by the source but not part of it.  Section 4.4: the check
    reads the count for (identity, today), answers [allowed = count < limit]
    and [remaining = max(0, limit - count)] together with the limit, and does
    not mutate state. *)
Definition hasRemainingMessages (today : nat)
    (identifier : string) (isGuest : bool) (limit : Z) : Async Store Usage :=
  fun store =>
    let count := usage_count store identifier today in
    (Returns (MkUsage (Z.ltb count limit) (Z.max 0 (limit - count)) limit), store).

(** Modelled from the spec: [incrementMessageCount] of [lib/message-tracking]
    is imported by the source but not part of it.  Section 4.4: the commit
    increments the count for (identity, today) by one. *)
Definition incrementMessageCount (today : nat)
    (identifier : string) (isGuest : bool) (limit : Z) : Async Store unit :=
  fun store =>
    (Returns (), <[(identifier, today) := usage_count store identifier today + 1]> store).

End MessageTracking.

(** ** Session creation *)

Record Request : Type := MkRequest {
  req_url : string;
  req_method : string;
  req_headers : list (string * string);
  req_body : JsVal  (* the value handed to JSON.stringify *)
}.

(** What the program reads of a [fetch] response. *)
Record Response : Type := MkResponse {
  ok : bool;
  status : Z;
  text : Outcome string;   (* await response.text() *)
  json : Outcome JsVal     (* await response.json() *)
}.

(** Everything [createSession] obtains from outside the usage store.  The
    session and the headers are read off the request, so [auth()] and
    [headers()] are reads that succeed; the provider lookup and [fetch] go
    over the network and may throw. *)
Record Env : Type := MkEnv {
  auth_userId : option string;             (* const { userId } = await auth() *)
  clerk_getUser : string -> Outcome JsVal;  (* (await clerkClient()).users.getUser *)
  x_forwarded_for : option string;         (* (await headers()).get("x-forwarded-for") *)
  OPENAI_API_KEY : option string;          (* process.env.OPENAI_API_KEY *)
  WORKFLOW_ID : option string;             (* the constant imported from lib/config *)
  Date_now : Z;                            (* Date.now() *)
  Math_random_36 : string;                 (* Math.random().toString(36) *)
  fetch : Request -> Outcome Response
}.

(** [s.substring(7)] *)
Definition substring_from_7 (s : string) : string :=
  String.substring 7 (String.length s - 7) s.

(** The request [createSession] sends to the session API. *)
Definition session_request (apiKey workflowId sessionUserId : string) : Request :=
  MkRequest "https://api.openai.com/v1/chatkit/sessions" "POST"
    [("Content-Type", "application/json");
     ("Authorization", "Bearer " +:+ apiKey);
     ("OpenAI-Beta", "chatkit_beta=v1")]
    (JObj [("workflow", JObj [("id", JStr workflowId)]); ("user", JStr sessionUserId)]).

(** The three texts of the quota error. *)
Definition guest_message (limit : Z) : string :=
  "Has alcanzado el límite de " +:+ num_to_string limit +:+
  " mensajes diarios. Inicia sesión para obtener " +:+
  num_to_string (getMessageLimit false free) +:+ " mensajes al día.".

Definition recruiter_message (limit : Z) : string :=
  "Has alcanzado el límite de " +:+ num_to_string limit +:+
  " mensajes diarios. Vuelve mañana para continuar.".

Definition free_message (limit : Z) : string :=
  "Has alcanzado el límite de " +:+ num_to_string limit +:+
  " mensajes diarios. Actualiza a Recruiter para obtener " +:+
  num_to_string (getMessageLimit false recruiter) +:+ " mensajes al día.".

Section CreateSession.

Context {St : Type}.

(** The two operations imported from [lib/message-tracking]. *)
Variable hasRemainingMessages : string -> bool -> Z -> Async St Usage.
Variable incrementMessageCount : string -> bool -> Z -> Async St unit.

Variable env : Env.

(** [createSession()] *)
Definition createSession : Async St JsVal :=
  let userId := auth_userId env in
  let isGuest := negb (truthy_str userId) in
  plan ← (if truthy_str userId
          then await (getUserPlan (clerk_getUser env) (default "" userId))
          else mret free);
  let messageLimit := getMessageLimit isGuest plan in
  let identifier :=
    if truthy_str userId then default "" userId
    else default "127.0.0.1" (x_forwarded_for env) in
  usage ← hasRemainingMessages identifier isGuest messageLimit;
  if negb (allowed usage) then
    let errorMessage :=
      if isGuest then guest_message (limit usage)
      else match plan with
           | recruiter => recruiter_message (limit usage)
           | free => free_message (limit usage)
           end in
    throw (Error errorMessage)
  else
    let sessionUserId :=
      if truthy_str userId then default "" userId
      else "guest_" +:+ num_to_string (Date_now env) +:+ "_" +:+
           substring_from_7 (Math_random_36 env) in
    let apiKey := OPENAI_API_KEY env in
    if negb (truthy_str apiKey) then throw (Error "OPENAI_API_KEY not configured")
    else if negb (truthy_str (WORKFLOW_ID env)) then throw (Error "WORKFLOW_ID not configured")
    else
      response ← await (fetch env (session_request (default "" apiKey)
                                     (default "" (WORKFLOW_ID env)) sessionUserId));
      if negb (ok response) then
        error ← await (text response);
        throw (Error ("Failed to create session: " +:+ error))
      else
        data ← await (json response);
        _ ← incrementMessageCount identifier isGuest messageLimit;
        await (get data "client_secret").

(** [getMessageUsage()]: the answer of the check together with the plan. *)
Definition getMessageUsage : Async St (Usage * Plan) :=
  let userId := auth_userId env in
  let isGuest := negb (truthy_str userId) in
  plan ← (if truthy_str userId
          then await (getUserPlan (clerk_getUser env) (default "" userId))
          else mret free);
  let messageLimit := getMessageLimit isGuest plan in
  let identifier :=
    if truthy_str userId then default "" userId
    else default "127.0.0.1" (x_forwarded_for env) in
  usage ← hasRemainingMessages identifier isGuest messageLimit;
  mret (usage, plan).

(** [getCurrentPlan()] *)
Definition getCurrentPlan : Outcome Plan :=
  let userId := auth_userId env in
  if negb (truthy_str userId) then Returns free
  else getUserPlan (clerk_getUser env) (default "" userId).

End CreateSession.

(** ** The job-fit endpoint *)

(** The response the route handler answers with: its status and the value
    serialised as its body. *)
Record Reply : Type := MkReply { reply_status : Z; reply_body : JsVal }.

(** [Response.json(object)] *)
Definition Response_json (object : JsVal) : Reply := MkReply 200 object.

(** [new Response(JSON.stringify({ error: message }), { status: 500 })] *)
Definition error_reply (message : string) : Reply :=
  MkReply 500 (JObj [("error", JStr message)]).

(** Everything [POST] obtains from outside. *)
Record FitEnv : Type := MkFitEnv {
  req_json : Outcome JsVal;              (* await req.json() *)
  fit_OPENAI_API_KEY : option string;    (* process.env.OPENAI_API_KEY *)
  (* fetch of the completions API; the request is fixed text apart from the
     key and the job description spliced into the prompt *)
  fit_fetch : string -> JsVal -> Outcome Response
}.

Section JobFit.

(** [JSON.parse], the runtime's parser: it delivers the parsed value or
    throws a SyntaxError. *)
Variable JSON_parse : JsVal -> Outcome JsVal.

Variable env : FitEnv.

(** The body of the [try] block of [POST]. *)
Definition POST_try : Outcome Reply :=
  body ← req_json env;
  jobDescription ← get body "jobDescription";
  let apiKey := fit_OPENAI_API_KEY env in
  if negb (truthy_str apiKey) then
    mret (error_reply "Server configuration error")
  else
    response ← fit_fetch env (default "" apiKey) jobDescription;
    if negb (ok response) then
      errorText ← text response;
      Throws (Error ("OpenAI API failed: " +:+ num_to_string (status response)))
    else
      data ← json response;
      choices ← get data "choices";
      choice ← get_first choices;
      message ← get choice "message";
      content ← get message "content";
      object ← JSON_parse content;
      mret (Response_json object).

(** [POST(req)]; the handler logs the error and answers the generic
    failure. *)
Definition POST : Outcome Reply :=
  try_catch POST_try (fun error => Returns (error_reply "Failed to analyze job fit")).

End JobFit.

(** The structure the endpoint asks the model for ([AssessmentResult]). *)
Definition is_string (v : JsVal) : bool :=
  match v with JStr _ => true | _ => false end.

Definition is_string_array (v : JsVal) : bool :=
  match v with JArr elems => forallb is_string elems | _ => false end.

Definition is_match_score (v : JsVal) : bool :=
  match v with JNum n => Z.leb 0 n && Z.leb n 100 | _ => false end.

Definition is_verdict (v : JsVal) : bool :=
  strict_eq_str v "High Match" || strict_eq_str v "Potential Match"
  || strict_eq_str v "Low Match".

Definition is_assessment_result (v : JsVal) : bool :=
  match v with
  | JObj props =>
      is_match_score (lookup_prop "matchScore" props)
      && is_string (lookup_prop "summary" props)
      && is_string_array (lookup_prop "strengths" props)
      && is_string_array (lookup_prop "gaps" props)
      && is_verdict (lookup_prop "verdict" props)
  | _ => false
  end.

(** ** Quantities of one call, for stating properties *)

(** The local constants [isGuest], [plan], [messageLimit], [identifier] and
    [sessionUserId] of [createSession] as functions of the environment. *)
Definition caller_isGuest (env : Env) : bool := negb (truthy_str (auth_userId env)).

Definition caller_plan (env : Env) : Plan :=
  if truthy_str (auth_userId env) then
    match getUserPlan (clerk_getUser env) (default "" (auth_userId env)) with
    | Returns plan => plan
    | Throws _ => free
    end
  else free.

Definition caller_limit (env : Env) : Z :=
  getMessageLimit (caller_isGuest env) (caller_plan env).

Definition caller_identifier (env : Env) : string :=
  if truthy_str (auth_userId env) then default "" (auth_userId env)
  else default "127.0.0.1" (x_forwarded_for env).

Definition caller_sessionUserId (env : Env) : string :=
  if truthy_str (auth_userId env) then default "" (auth_userId env)
  else "guest_" +:+ num_to_string (Date_now env) +:+ "_" +:+
       substring_from_7 (Math_random_36 env).

(** The text of the quota error for a caller and the limit the check
    reported. *)
Definition quota_message (isGuest : bool) (plan : Plan) (limit : Z) : string :=
  if isGuest then guest_message limit
  else match plan with
       | recruiter => recruiter_message limit
       | free => free_message limit
       end.

(** The outcome of the call to the session API, made once the
    configuration is in place. *)
Definition external_call (env : Env) : Outcome Response :=
  fetch env (session_request (default "" (OPENAI_API_KEY env))
               (default "" (WORKFLOW_ID env)) (caller_sessionUserId env)).

Definition configured (env : Env) : bool :=
  truthy_str (OPENAI_API_KEY env) && truthy_str (WORKFLOW_ID env).

(** The external call has returned a success response: the configuration is
    present, [fetch] did not throw and [response.ok] holds. *)
Definition upstream_ok (env : Env) : bool :=
  configured env &&
  match external_call env with
  | Returns response => ok response
  | Throws _ => false
  end.

(** ** A tracker that records how it is called *)

Inductive TrackerCall : Type :=
| CheckCall (identifier : string) (isGuest : bool) (limit : Z)
| CommitCall (identifier : string) (isGuest : bool) (limit : Z).

Definition is_commit (c : TrackerCall) : bool :=
  match c with CommitCall _ _ _ => true | CheckCall _ _ _ => false end.

(** The check answers as [answer] says and notes the call; the commit notes
    the call. *)
Definition recording_check (answer : string -> bool -> Z -> Usage)
    (identifier : string) (isGuest : bool) (limit : Z) : Async (list TrackerCall) Usage :=
  fun log => (Returns (answer identifier isGuest limit), app log [CheckCall identifier isGuest limit]).

Definition recording_commit
    (identifier : string) (isGuest : bool) (limit : Z) : Async (list TrackerCall) unit :=
  fun log => (Returns (), app log [CommitCall identifier isGuest limit]).

(** ** Requests that overlap *)

(** [createSession] between its awaits on the usage store: the check with the
    decision taken on its answer, the external call, the commit. *)
Section Phases.

Context {St : Type}.
Variable hasRemainingMessages : string -> bool -> Z -> Async St Usage.
Variable incrementMessageCount : string -> bool -> Z -> Async St unit.
Variable env : Env.

Definition check_phase : Async St unit :=
  usage ← hasRemainingMessages (caller_identifier env) (caller_isGuest env) (caller_limit env);
  if negb (allowed usage)
  then throw (Error (quota_message (caller_isGuest env) (caller_plan env) (limit usage)))
  else mret ().

Definition provision_phase : Outcome JsVal :=
  if negb (truthy_str (OPENAI_API_KEY env)) then Throws (Error "OPENAI_API_KEY not configured")
  else if negb (truthy_str (WORKFLOW_ID env)) then Throws (Error "WORKFLOW_ID not configured")
  else
    response ← external_call env;
    if negb (ok response) then
      error ← text response;
      Throws (Error ("Failed to create session: " +:+ error))
    else json response.

Definition commit_phase (data : JsVal) : Async St JsVal :=
  _ ← incrementMessageCount (caller_identifier env) (caller_isGuest env) (caller_limit env);
  await (get data "client_secret").

(** A request in flight. *)
Inductive Proc : Type :=
| Started
| Checked
| Provisioned (data : JsVal)
| Finished (result : Outcome JsVal).

(** One request advances to its next await on the store. *)
Definition proc_step (p : Proc) (s : St) : Proc * St :=
  match p with
  | Started =>
      match check_phase s with
      | (Returns _, s') => (Checked, s')
      | (Throws e, s') => (Finished (Throws e), s')
      end
  | Checked =>
      match provision_phase with
      | Returns data => (Provisioned data, s)
      | Throws e => (Finished (Throws e), s)
      end
  | Provisioned data =>
      match commit_phase data s with
      | (result, s') => (Finished result, s')
      end
  | Finished result => (Finished result, s)
  end.

(** Requests of one caller, advanced in the order of [schedule]; an entry
    names the request that takes its next step. *)
Fixpoint run (schedule : list nat) (pool : list Proc) (s : St) : list Proc * St :=
  match schedule with
  | [] => (pool, s)
  | i :: rest =>
      match pool !! i with
      | Some p => let '(p', s') := proc_step p s in run rest (<[i := p']> pool) s'
      | None => run rest pool s
      end
  end.

(** Request after request, none overlapping another. *)
Fixpoint serial (first count : nat) : list nat :=
  match count with
  | O => []
  | S count' => first :: first :: first :: serial (S first) count'
  end.

End Phases.

Definition is_issued (p : Proc) : bool :=
  match p with Finished (Returns _) => true | _ => false end.

Definition is_rejected (p : Proc) : bool :=
  match p with Finished (Throws _) => true | _ => false end.

(** How many requests of a pool ended with a credential, how many with an
    error. *)
Definition issued (pool : list Proc) : nat := length (List.filter is_issued pool).
Definition rejected (pool : list Proc) : nat := length (List.filter is_rejected pool).

(** ** Well-formed provider data *)

(** A user as the identity provider documents it: organization memberships,
    public metadata and private metadata, each possibly absent; metadata are
    arbitrary objects. *)
Record Organization : Type := MkOrganization {
  org_publicMetadata : option (list (string * JsVal))
}.

Record OrganizationMembership : Type := MkMembership {
  organization : option Organization
}.

Record User : Type := MkUser {
  organizationMemberships : option (list OrganizationMembership);
  publicMetadata : option (list (string * JsVal));
  privateMetadata : option (list (string * JsVal))
}.

Definition metadata_value (metadata : option (list (string * JsVal))) : JsVal :=
  match metadata with
  | Some props => JObj props
  | None => JUndefined
  end.

Definition organization_value (o : option Organization) : JsVal :=
  match o with
  | Some org => JObj [("publicMetadata", metadata_value (org_publicMetadata org))]
  | None => JUndefined
  end.

Definition membership_value (m : OrganizationMembership) : JsVal :=
  JObj [("organization", organization_value (organization m))].

(** The value [getUser] delivers for a well-formed user. *)
Definition user_value (u : User) : JsVal :=
  JObj [("organizationMemberships",
         match organizationMemberships u with
         | Some ms => JArr (map membership_value ms)
         | None => JUndefined
         end);
        ("publicMetadata", metadata_value (publicMetadata u));
        ("privateMetadata", metadata_value (privateMetadata u))].

(** A metadata object marks the plan recruiter under the key [key]. *)
Definition marks_recruiter (metadata : option (list (string * JsVal))) (key : string) : bool :=
  match metadata with
  | Some props => strict_eq_str (lookup_prop key props) "recruiter"
  | None => false
  end.

Definition organization_marks_recruiter (m : OrganizationMembership) : bool :=
  match organization m with
  | Some org => marks_recruiter (org_publicMetadata org) "plan"
  | None => false
  end.

(** The precedence of section 4.2, first match wins. *)
Definition resolve_by_precedence (u : User) : Plan :=
  if existsb organization_marks_recruiter (default [] (organizationMemberships u)) then recruiter
  else if marks_recruiter (publicMetadata u) "subscriptionPlan" then recruiter
  else if marks_recruiter (privateMetadata u) "subscriptionPlan" then recruiter
  else free.

(** ** Provider data the resolver cannot process *)

(** A list of memberships holds a [null] or [undefined] entry that the
    visit of [some] reaches, that is, one not preceded by a membership of a
    recruiter organization. *)
Fixpoint reaches_nullish_membership (elems : list JsVal) : bool :=
  match elems with
  | [] => false
  | x :: rest =>
      if nullish x then true
      else match membership_is_recruiter x with
           | Returns true => false
           | _ => reaches_nullish_membership rest
           end
  end.

(** The value cannot be processed: it is [null] or [undefined], or its
    memberships are a truthy value that is no array, or an array with a
    reachable [null] or [undefined] entry. *)
Definition unprocessable_user (user : JsVal) : bool :=
  match get user "organizationMemberships" with
  | Throws _ => true
  | Returns memberships =>
      truthy memberships &&
      match memberships with
      | JArr elems => reaches_nullish_membership elems
      | _ => true
      end
  end.

Definition is_object (v : JsVal) : bool :=
  match v with JObj _ => true | _ => false end.

(** The delivered value is malformed: it is no object at all, or it is one
    that cannot be processed. *)
Definition malformed_user (user : JsVal) : bool :=
  negb (is_object user) || unprocessable_user user.

(** The lookup threw, or it delivered a malformed user. *)
Definition lookup_failed (o : Outcome JsVal) : bool :=
  match o with
  | Throws _ => true
  | Returns user => malformed_user user
  end.

(** ** Identity as the specification words it *)

Definition identity_by_spec (env : Env) : string * bool :=
  match auth_userId env with
  | Some userId => (userId, false)
  | None =>
      (match x_forwarded_for env with
       | Some originAddress => originAddress
       | None => "127.0.0.1"
       end, true)
  end.

(** ** Error kinds as the specification words them *)

Inductive ErrorKind : Type := QuotaExceeded | ConfigurationError | UpstreamError.

(** The kind a thrown value carries in its type, if it is of one of the
    three kinds. *)
Definition error_kind (e : JsExn) : option ErrorKind :=
  if String.eqb (exn_name e) "QuotaExceeded" then Some QuotaExceeded
  else if String.eqb (exn_name e) "ConfigurationError" then Some ConfigurationError
  else if String.eqb (exn_name e) "UpstreamError" then Some UpstreamError
  else None.

(** ** Sample environments *)

Definition session_data : JsVal := JObj [("client_secret", JStr "cs_live_1")].

Definition created : Response :=
  MkResponse true 200 (Returns "{}") (Returns session_data).

Definition unavailable : Response :=
  MkResponse false 503 (Returns "upstream unavailable") (Throws (SyntaxError "Unexpected token u")).

(** An anonymous caller behind 203.0.113.7; the session API answers. *)
Definition env_guest : Env :=
  MkEnv None (fun _ => Throws (MkExn "ClerkAPIResponseError" "Not Found"))
    (Some "203.0.113.7") (Some "sk-test") (Some "wf_1")
    1700000000000 "0.4fzyo82mvyr" (fun _ => Returns created).

(** The same caller while the network is down: [fetch] rejects. *)
Definition env_network_down : Env :=
  MkEnv None (fun _ => Throws (MkExn "ClerkAPIResponseError" "Not Found"))
    (Some "203.0.113.7") (Some "sk-test") (Some "wf_1")
    1700000000000 "0.4fzyo82mvyr" (fun _ => Throws (TypeError "fetch failed")).

(** The same caller on a deployment without its API key. *)
Definition env_unconfigured : Env :=
  MkEnv None (fun _ => Throws (MkExn "ClerkAPIResponseError" "Not Found"))
    (Some "203.0.113.7") None (Some "wf_1")
    1700000000000 "0.4fzyo82mvyr" (fun _ => Returns created).

(** A user in a recruiter organization whose own public metadata say free. *)
Definition user_in_recruiter_org : User :=
  MkUser
    (Some [MkMembership (Some (MkOrganization (Some [("plan", JStr "recruiter")])))])
    (Some [("subscriptionPlan", JStr "free")])
    None.

(** That user signed in; the session API answers 503. *)
Definition env_recruiter : Env :=
  MkEnv (Some "user_2abc") (fun _ => Returns (user_value user_in_recruiter_org))
    None (Some "sk-test") (Some "wf_1")
    1700000000000 "0.4fzyo82mvyr" (fun _ => Returns unavailable).

(** A day of the tracker's calendar. *)
Definition a_day : nat := 306.

(** A store in which the guest has used up the three messages of the day. *)
Definition store_guest_exhausted : gmap (string * nat) Z :=
  {[ ("203.0.113.7", a_day) := 3 ]}.

(** A check that always answers that nothing remains of the limit asked. *)
Definition answer_exhausted (identifier : string) (isGuest : bool) (limit : Z) : Usage :=
  MkUsage false 0 limit.

(** A check that always answers that the whole limit remains. *)
Definition answer_fresh (identifier : string) (isGuest : bool) (limit : Z) : Usage :=
  MkUsage true limit limit.

(** ** The completion the job-fit endpoint reads *)

(** [data.choices[0].message.content] *)
Definition completion_content (data : JsVal) : Outcome JsVal :=
  choices ← get data "choices";
  choice ← get_first choices;
  message ← get choice "message";
  get message "content".

(** The object the endpoint obtains from the completion service, if the
    call returns a success response whose body can be read, holds a first
    choice with message content, and that content parses. *)
Definition completion (JSON_parse : JsVal -> Outcome JsVal) (o : Outcome Response) : option JsVal :=
  match o with
  | Returns response =>
      if ok response then
        match (data ← json response; content ← completion_content data; JSON_parse content) with
        | Returns object => Some object
        | Throws _ => None
        end
      else None
  | Throws _ => None
  end.

(** The parser on the two texts used below: the empty object parses, any
    other text does not. *)
Definition parse_sample (v : JsVal) : Outcome JsVal :=
  match v with
  | JStr s => if String.eqb s "{}" then Returns (JObj [])
              else Throws (SyntaxError "Unexpected token in JSON")
  | _ => Throws (SyntaxError "Unexpected token in JSON")
  end.

Definition completion_body (content : string) : JsVal :=
  JObj [("choices", JArr [JObj [("message", JObj [("content", JStr content)])]])].

(** The model answers with the text of an empty object. *)
Definition env_fit_empty_object : FitEnv :=
  MkFitEnv (Returns (JObj [("jobDescription", JStr "Senior Rust engineer")]))
    (Some "sk-test")
    (fun _ _ => Returns (MkResponse true 200 (Returns "") (Returns (completion_body "{}")))).

(** The model answers with text that is no JSON. *)
Definition env_fit_no_json : FitEnv :=
  MkFitEnv (Returns (JObj [("jobDescription", JStr "Senior Rust engineer")]))
    (Some "sk-test")
    (fun _ _ => Returns (MkResponse true 200 (Returns "")
                           (Returns (completion_body "Sorry, I cannot help with that.")))).

(** ** The shapes of a failed session creation *)

(** An error [createSession] constructs itself: a plain [Error], of none of
    the three kinds by its type, with one of four message texts. *)
Definition own_error (env : Env) (e : JsExn) : Prop :=
  exn_name e = "Error" /\ error_kind e = None /\
  ((exists limit, exn_message e = quota_message (caller_isGuest env) (caller_plan env) limit) \/
   exn_message e = "OPENAI_API_KEY not configured" \/
   exn_message e = "WORKFLOW_ID not configured" \/
   (exists body, exn_message e = "Failed to create session: " +:+ body)).

(** The exception of an awaited call: of the check, of [fetch], of reading
    the response, of reading [client_secret], of the commit. *)
Definition passed_on {St : Type}
    (hasRemainingMessages : string -> bool -> Z -> Async St Usage)
    (incrementMessageCount : string -> bool -> Z -> Async St unit)
    (env : Env) (s : St) (e : JsExn) : Prop :=
  fst (hasRemainingMessages (caller_identifier env) (caller_isGuest env) (caller_limit env) s)
    = Throws e \/
  external_call env = Throws e \/
  (exists response,
      external_call env = Returns response /\
      (text response = Throws e \/ json response = Throws e \/
       exists data, json response = Returns data /\
         (get data "client_secret" = Throws e \/
          exists s1, fst (incrementMessageCount (caller_identifier env) (caller_isGuest env)
                            (caller_limit env) s1) = Throws e))).

(** A user value whose memberships are text. *)
Definition user_with_text_memberships : JsVal :=
  JObj [("organizationMemberships", JStr "n/a");
        ("publicMetadata", JObj [("subscriptionPlan", JStr "recruiter")])].

(** ** The score colours of the job-fit component *)

(** A JavaScript number as the colour helpers see it: they only compare it
    with constants, so a finite number is taken as the rational it denotes;
    [NaN] is what a missing score converts to. *)
Inductive JsNumber : Type :=
| NaN
| Num (q : QArith_base.Q).

(** [x >= n] for an integral constant [n]; a comparison with [NaN] is false. *)
Definition number_ge (x : JsNumber) (n : Z) : bool :=
  match x with
  | NaN => false
  | Num q => QArith_base.Qle_bool (QArith_base.inject_Z n) q
  end.

(** [getScoreHexColor(score)] of [JobFitAssessment] *)
Definition getScoreHexColor (score : JsNumber) : string :=
  if number_ge score 80 then "#10b981"
  else if number_ge score 50 then "#eab308"
  else "#ef4444".

(** [getScoreTextColor(score)] of [JobFitAssessment] *)
Definition getScoreTextColor (score : JsNumber) : string :=
  if number_ge score 80 then "text-emerald-500"
  else if number_ge score 50 then "text-yellow-500"
  else "text-red-500".

(** ** Further sample environments *)

(** The environment with another [fetch]. *)
Definition with_fetch (f : Request -> Outcome Response) (env : Env) : Env :=
  MkEnv (auth_userId env) (clerk_getUser env) (x_forwarded_for env)
    (OPENAI_API_KEY env) (WORKFLOW_ID env) (Date_now env) (Math_random_36 env) f.

(** A signed-in user while the identity provider is down. *)
Definition env_provider_down : Env :=
  MkEnv (Some "user_2abc") (fun _ => Throws (MkExn "ClerkAPIResponseError" "Service Unavailable"))
    None (Some "sk-test") (Some "wf_1")
    1700000000000 "0.4fzyo82mvyr" (fun _ => Returns created).

(** The session API answers with a success response whose body is [null]. *)
Definition env_null_body : Env :=
  MkEnv None (fun _ => Throws (MkExn "ClerkAPIResponseError" "Not Found"))
    (Some "203.0.113.7") (Some "sk-test") (Some "wf_1")
    1700000000000 "0.4fzyo82mvyr"
    (fun _ => Returns (MkResponse true 200 (Returns "null") (Returns JNull))).

(** A job-fit request whose body cannot be read, on a deployment without
    its API key. *)
Definition env_fit_unreadable : FitEnv :=
  MkFitEnv (Throws (SyntaxError "Unexpected end of JSON input")) None
    (fun _ _ => Throws (TypeError "fetch failed")).

(** A readable job-fit request on a deployment without its API key. *)
Definition env_fit_unconfigured : FitEnv :=
  MkFitEnv (Returns (JObj [("jobDescription", JStr "Senior Rust engineer")])) None
    (fun _ _ => Throws (TypeError "fetch failed")).

(** A check that cannot reach its store. *)
Definition unreachable_check (identifier : string) (isGuest : bool) (limit : Z)
  : Async (list TrackerCall) Usage :=
  fun log => (Throws (MkExn "Error" "connect ECONNREFUSED"), log).

(** A request in flight that is on course when the external call delivers
    [data] and [data] holds the credential [secret]: it has not failed, the
    data it holds are [data], and if it has ended, it ended with [secret]. *)
Definition on_course (data secret : JsVal) (p : Proc) : Prop :=
  match p with
  | Started | Checked => True
  | Provisioned d => d = data
  | Finished result => result = Returns secret
  end.

(** * Properties *)

(** ** Quota policy *)

(** C1: the quota policy is a function of (isGuest, tier) alone and its table
    is: guest, whatever the tier, 3; authenticated free 5; authenticated
    recruiter 20. *)
Theorem getMessageLimit_table :
  forall (isGuest : bool) (tier : Plan),
    getMessageLimit isGuest tier =
    match isGuest, tier with
    | true, _ => 3
    | false, free => 5
    | false, recruiter => 20
    end.
Proof. intros [] []; reflexivity. Qed.

(** The ordering of the allowances. *)
Lemma getMessageLimit_ordered (tier : Plan) :
  (getMessageLimit true tier < getMessageLimit false free < getMessageLimit false recruiter)%Z.
Proof. destruct tier; cbn; lia. Qed.

(** ** Plan resolution *)

Lemma membership_value_is_recruiter (m : OrganizationMembership) :
  membership_is_recruiter (membership_value m) = Returns (organization_marks_recruiter m).
Proof.
  destruct m as [[[[props|]]|]]; reflexivity.
Qed.

Lemma array_some_memberships (ms : list OrganizationMembership) :
  array_some membership_is_recruiter (map membership_value ms)
  = Returns (existsb organization_marks_recruiter ms).
Proof.
  induction ms as [|m ms IH]; [reflexivity|].
  cbn [map array_some existsb]. rewrite membership_value_is_recruiter. cbn.
  destruct (organization_marks_recruiter m); [reflexivity|exact IH].
Qed.

Lemma get_opt_metadata (metadata : option (list (string * JsVal))) (key : string) :
  (plan ← get_opt (metadata_value metadata) key; mret (strict_eq_str plan "recruiter"))
  = Returns (marks_recruiter metadata key).
Proof. destruct metadata; reflexivity. Qed.

(** On the value of a well-formed user [getUserPlan] computes the
    first-match resolution. *)
Lemma getUserPlan_user_value (getUser : string -> Outcome JsVal) (userId : string) (u : User) :
  getUser userId = Returns (user_value u) ->
  getUserPlan getUser userId = Returns (resolve_by_precedence u).
Proof.
  destruct u as [oms pub priv]. intros Hget.
  unfold getUserPlan, getUserPlan_try, resolve_by_precedence. rewrite Hget. cbn.
  assert (Hsome :
    some (if truthy (match oms with Some ms => JArr (map membership_value ms) | None => JUndefined end)
          then match oms with Some ms => JArr (map membership_value ms) | None => JUndefined end
          else JArr []) membership_is_recruiter
    = Returns (existsb organization_marks_recruiter (default [] oms))).
  { destruct oms as [ms|]; cbn; [apply array_some_memberships|reflexivity]. }
  rewrite Hsome. cbn.
  destruct (existsb organization_marks_recruiter (default [] oms)); [reflexivity|].
  destruct pub as [pprops|], priv as [qprops|]; cbn;
    repeat match goal with
           | |- context [strict_eq_str ?v ?s] => destruct (strict_eq_str v s); cbn
           end; reflexivity.
Qed.

(** C3: for a user the provider delivers, the resolved plan follows the
    first-match precedence: a membership in an organization marked recruiter,
    else the public attribute, else the private attribute, else free.  In
    particular a recruiter organization decides the plan whatever the user's
    own metadata say. *)
Theorem getUserPlan_precedence :
  forall (getUser : string -> Outcome JsVal) (userId : string) (u : User),
    getUser userId = Returns (user_value u) ->
    getUserPlan getUser userId = Returns (resolve_by_precedence u) /\
    (existsb organization_marks_recruiter (default [] (organizationMemberships u)) = true ->
     getUserPlan getUser userId = Returns recruiter).
Proof.
  intros getUser userId u Hget.
  rewrite (getUserPlan_user_value getUser userId u Hget). split; [reflexivity|].
  intros Horg. unfold resolve_by_precedence. rewrite Horg. reflexivity.
Qed.

Lemma get_non_nullish (v : JsVal) (k : string) :
  nullish v = false -> exists w, get v k = Returns w.
Proof. destruct v; cbn; intros H; try discriminate; eauto. Qed.

Lemma get_nullish (v : JsVal) (k : string) :
  nullish v = true -> exists e, get v k = Throws e.
Proof. destruct v; cbn; intros H; try discriminate; eauto. Qed.

Lemma get_opt_returns (v : JsVal) (k : string) :
  exists w, get_opt v k = Returns w.
Proof.
  unfold get_opt. destruct (nullish v) eqn:Hn; [eauto|].
  apply get_non_nullish, Hn.
Qed.

(** The callback of [some] throws exactly on [null] and [undefined]. *)
Lemma membership_is_recruiter_outcome (x : JsVal) :
  if nullish x then exists e, membership_is_recruiter x = Throws e
  else exists b, membership_is_recruiter x = Returns b.
Proof.
  unfold membership_is_recruiter. destruct (nullish x) eqn:Hn.
  - destruct (get_nullish x "organization" Hn) as [e ->]. cbn. eauto.
  - destruct (get_non_nullish x "organization" Hn) as [o ->]. cbn.
    destruct (get_opt_returns o "publicMetadata") as [pm ->]. cbn.
    destruct (get_opt_returns pm "plan") as [p ->]. cbn. eauto.
Qed.

Lemma array_some_outcome (elems : list JsVal) :
  if reaches_nullish_membership elems
  then exists e, array_some membership_is_recruiter elems = Throws e
  else exists b, array_some membership_is_recruiter elems = Returns b.
Proof.
  induction elems as [|x rest IH]; cbn [reaches_nullish_membership array_some].
  - eauto.
  - pose proof (membership_is_recruiter_outcome x) as Hx.
    destruct (nullish x).
    + destruct Hx as [e ->]. cbn. eauto.
    + destruct Hx as [b ->]. cbn. destruct b; [eauto|exact IH].
Qed.

(** The [try] block of [getUserPlan] throws exactly when the lookup throws
    or delivers a value that cannot be processed. *)
Lemma getUserPlan_try_outcome (getUser : string -> Outcome JsVal) (userId : string) :
  if match getUser userId with
     | Throws _ => true
     | Returns user => unprocessable_user user
     end
  then exists e, getUserPlan_try getUser userId = Throws e
  else exists plan, getUserPlan_try getUser userId = Returns plan.
Proof.
  unfold getUserPlan_try, unprocessable_user.
  destruct (getUser userId) as [user|e]; cbn; [|eauto].
  destruct (get user "organizationMemberships") as [om|e] eqn:Hom; cbn; [|eauto].
  assert (Hu : nullish user = false) by (destruct user; cbn in *; congruence).
  destruct (get_non_nullish user "publicMetadata" Hu) as [pm Hpm].
  destruct (get_non_nullish user "privateMetadata" Hu) as [qm Hqm].
  destruct (get_opt_returns pm "subscriptionPlan") as [p Hp].
  destruct (get_opt_returns qm "subscriptionPlan") as [q Hq].
  assert (Hrest : forall b : bool, exists plan,
    (if b then mret recruiter
     else
       publicMetadata ← get user "publicMetadata";
       plan ← get_opt publicMetadata "subscriptionPlan";
       if strict_eq_str plan "recruiter" then mret recruiter
       else
         privateMetadata ← get user "privateMetadata";
         privateMetadataPlan ← get_opt privateMetadata "subscriptionPlan";
         if strict_eq_str privateMetadataPlan "recruiter" then mret recruiter
         else mret free) = Returns plan).
  { intros [|]; [eexists; reflexivity|].
    rewrite Hpm. cbn. rewrite Hp. cbn.
    destruct (strict_eq_str p "recruiter"); [eexists; reflexivity|].
    rewrite Hqm. cbn. rewrite Hq. cbn.
    destruct (strict_eq_str q "recruiter"); eexists; reflexivity. }
  destruct (truthy om) eqn:Ht; cbn.
  - destruct om as [| |b|n|s|elems|props]; cbn in Ht; try discriminate; cbn; eauto.
    pose proof (array_some_outcome elems) as Hs.
    destruct (reaches_nullish_membership elems).
    + destruct Hs as [e ->]. cbn. eauto.
    + destruct Hs as [b ->]. cbn. apply Hrest.
  - apply (Hrest false).
Qed.

(** A delivered value that is no object resolves to free. *)
Lemma getUserPlan_not_object (getUser : string -> Outcome JsVal) (userId : string) (user : JsVal) :
  getUser userId = Returns user ->
  is_object user = false ->
  getUserPlan getUser userId = Returns free.
Proof.
  intros Hget Hobj. unfold getUserPlan, getUserPlan_try. rewrite Hget.
  destruct user; try discriminate Hobj; reflexivity.
Qed.

Lemma getUserPlan_returns (getUser : string -> Outcome JsVal) (userId : string) :
  exists plan, getUserPlan getUser userId = Returns plan.
Proof.
  unfold getUserPlan. destruct (getUserPlan_try getUser userId); cbn; eauto.
Qed.

(** C4: plan resolution fails closed.  [getUserPlan] always returns a plan
    and never throws; when the provider lookup throws or delivers malformed
    data (no object, or an object the resolver cannot process), the plan
    returned is free. *)
Theorem getUserPlan_fails_closed :
  forall (getUser : string -> Outcome JsVal) (userId : string),
    (exists plan, getUserPlan getUser userId = Returns plan) /\
    (lookup_failed (getUser userId) = true ->
     getUserPlan getUser userId = Returns free).
Proof.
  intros getUser userId. split; [apply getUserPlan_returns|].
  unfold lookup_failed, malformed_user. intros Hf.
  pose proof (getUserPlan_try_outcome getUser userId) as H.
  destruct (getUser userId) as [user|e] eqn:Hget.
  - destruct (is_object user) eqn:Hobj; cbn in Hf.
    + rewrite Hf in H. destruct H as [e He]. unfold getUserPlan. rewrite He. reflexivity.
    + apply (getUserPlan_not_object getUser userId user Hget Hobj).
  - destruct H as [e' He]. unfold getUserPlan. rewrite He. reflexivity.
Qed.

(** ** Session creation, unfolded *)

Lemma caller_plan_resolved (env : Env) :
  getUserPlan (clerk_getUser env) (default "" (auth_userId env))
  = Returns (match getUserPlan (clerk_getUser env) (default "" (auth_userId env)) with
             | Returns plan => plan
             | Throws _ => free
             end).
Proof.
  destruct (getUserPlan_returns (clerk_getUser env) (default "" (auth_userId env))) as [plan ->].
  reflexivity.
Qed.

Section CreateSessionFacts.

Context {St : Type}.
Variable hasRemainingMessages : string -> bool -> Z -> Async St Usage.
Variable incrementMessageCount : string -> bool -> Z -> Async St unit.
Variable env : Env.

Abbreviation identifier := (caller_identifier env).
Abbreviation isGuest := (caller_isGuest env).
Abbreviation messageLimit := (caller_limit env).

(** [createSession] is the check, the decision on its answer, the external
    call and the commit, in this order. *)
Lemma createSession_unfold (s : St) :
  createSession hasRemainingMessages incrementMessageCount env s =
  match hasRemainingMessages identifier isGuest messageLimit s with
  | (Throws e, s1) => (Throws e, s1)
  | (Returns usage, s1) =>
      if allowed usage then
        match provision_phase env with
        | Throws e => (Throws e, s1)
        | Returns data =>
            match incrementMessageCount identifier isGuest messageLimit s1 with
            | (Throws e, s2) => (Throws e, s2)
            | (Returns _, s2) => (get data "client_secret", s2)
            end
        end
      else (Throws (Error (quota_message isGuest (caller_plan env) (limit usage))), s1)
  end.
Proof.
  unfold createSession, provision_phase, external_call, caller_limit, caller_identifier,
    caller_isGuest, caller_plan, caller_sessionUserId, quota_message.
  unfold mbind, Async_bind, mret, Async_ret, await, throw.
  destruct (truthy_str (auth_userId env)) eqn:Hu; cbn [negb].
  - rewrite caller_plan_resolved at 1.
    destruct (hasRemainingMessages _ _ _ s) as [[usage|e] s1]; [|reflexivity].
    destruct (allowed usage); cbn [negb]; [|reflexivity].
    destruct (truthy_str (OPENAI_API_KEY env)); cbn [negb]; [|reflexivity].
    destruct (truthy_str (WORKFLOW_ID env)); cbn [negb]; [|reflexivity].
    destruct (fetch env _) as [response|e]; cbn; [|reflexivity].
    destruct (ok response); cbn.
    + destruct (json response) as [data|e]; cbn; [|reflexivity].
      destruct (incrementMessageCount _ _ _ s1) as [[[]|e] s2]; reflexivity.
    + destruct (text response); reflexivity.
  - destruct (hasRemainingMessages _ _ _ s) as [[usage|e] s1]; [|reflexivity].
    destruct (allowed usage); cbn [negb]; [|reflexivity].
    destruct (truthy_str (OPENAI_API_KEY env)); cbn [negb]; [|reflexivity].
    destruct (truthy_str (WORKFLOW_ID env)); cbn [negb]; [|reflexivity].
    destruct (fetch env _) as [response|e]; cbn; [|reflexivity].
    destruct (ok response); cbn.
    + destruct (json response) as [data|e]; cbn; [|reflexivity].
      destruct (incrementMessageCount _ _ _ s1) as [[[]|e] s2]; reflexivity.
    + destruct (text response); reflexivity.
Qed.

(** Without a success response the external call yields no session data. *)
Lemma provision_phase_fails :
  upstream_ok env = false -> exists e, provision_phase env = Throws e.
Proof.
  unfold upstream_ok, configured, provision_phase.
  destruct (truthy_str (OPENAI_API_KEY env)); cbn; [|eauto].
  destruct (truthy_str (WORKFLOW_ID env)); cbn; [|eauto].
  destruct (external_call env) as [response|e]; cbn; [|eauto].
  intros ->. cbn. destruct (text response); cbn; eauto.
Qed.

(** Session data are at hand only after a success response. *)
Lemma provision_phase_returns (data : JsVal) :
  provision_phase env = Returns data -> upstream_ok env = true.
Proof.
  intros H. destruct (upstream_ok env) eqn:Hu; [reflexivity|].
  destruct (provision_phase_fails Hu) as [e He]. congruence.
Qed.

(** On a failed external call [createSession] throws and leaves the store
    as the check left it: the commit is not run. *)
Lemma createSession_failure_skips_commit (s : St) :
  upstream_ok env = false ->
  (exists e, fst (createSession hasRemainingMessages incrementMessageCount env s) = Throws e) /\
  snd (createSession hasRemainingMessages incrementMessageCount env s)
  = snd (hasRemainingMessages identifier isGuest messageLimit s).
Proof.
  intros Hu. rewrite createSession_unfold.
  destruct (provision_phase_fails Hu) as [e He]. rewrite He.
  destruct (hasRemainingMessages _ _ _ s) as [[usage|e'] s1]; cbn; [|eauto].
  destruct (allowed usage); cbn; eauto.
Qed.

(** A refused check ends [createSession] with the quota error. *)
Lemma createSession_refused (s s1 : St) (usage : Usage) :
  hasRemainingMessages identifier isGuest messageLimit s = (Returns usage, s1) ->
  allowed usage = false ->
  createSession hasRemainingMessages incrementMessageCount env s
  = (Throws (Error (quota_message isGuest (caller_plan env) (limit usage))), s1).
Proof.
  intros Hcheck Hno. rewrite createSession_unfold, Hcheck, Hno. reflexivity.
Qed.

End CreateSessionFacts.

Lemma quota_message_literal (isGuest : bool) (plan : Plan) :
  quota_message isGuest plan (getMessageLimit isGuest plan) =
  match isGuest, plan with
  | true, _ =>
      "Has alcanzado el límite de 3 mensajes diarios. Inicia sesión para obtener 5 mensajes al día."
  | false, free =>
      "Has alcanzado el límite de 5 mensajes diarios. Actualiza a Recruiter para obtener 20 mensajes al día."
  | false, recruiter =>
      "Has alcanzado el límite de 20 mensajes diarios. Vuelve mañana para continuar."
  end.
Proof. destruct isGuest, plan; vm_compute; reflexivity. Qed.

(** The quota text begins differently from the configuration texts. *)
Lemma quota_message_head (isGuest : bool) (plan : Plan) (limit : Z) :
  exists rest, quota_message isGuest plan limit = String "H"%char rest.
Proof.
  unfold quota_message, guest_message, recruiter_message, free_message.
  destruct isGuest; [|destruct plan]; cbn; eauto.
Qed.

(** ** Commit after success *)

(** C2: when the external session call has not returned a success response
    (missing configuration, a rejected [fetch], a non-success response),
    [createSession] fails without running the commit: whatever the tracker,
    the store is as the check left it; with the tracker of section 4.4 every
    usage count is unchanged; and a recording tracker sees the check alone. *)
Theorem createSession_commit_only_after_success :
  forall env : Env,
    upstream_ok env = false ->
    (forall (St : Type) (hasRemainingMessages : string -> bool -> Z -> Async St Usage)
            (incrementMessageCount : string -> bool -> Z -> Async St unit) (s : St),
        (exists e, fst (createSession hasRemainingMessages incrementMessageCount env s) = Throws e) /\
        snd (createSession hasRemainingMessages incrementMessageCount env s)
        = snd (hasRemainingMessages (caller_identifier env) (caller_isGuest env) (caller_limit env) s)) /\
    (forall (today : nat) (store : gmap (string * nat) Z) (identity : string) (day : nat),
        MessageTracking.usage_count
          (snd (createSession (MessageTracking.hasRemainingMessages today)
                  (MessageTracking.incrementMessageCount today) env store)) identity day
        = MessageTracking.usage_count store identity day) /\
    (forall (answer : string -> bool -> Z -> Usage) (log : list TrackerCall),
        snd (createSession (recording_check answer) recording_commit env log)
        = app log [CheckCall (caller_identifier env) (caller_isGuest env) (caller_limit env)]).
Proof.
  intros env Hu. split; [|split].
  - intros St has incr s. apply createSession_failure_skips_commit, Hu.
  - intros today store identity day.
    destruct (createSession_failure_skips_commit (MessageTracking.hasRemainingMessages today)
                (MessageTracking.incrementMessageCount today) env store Hu) as [_ ->].
    reflexivity.
  - intros answer log.
    destruct (createSession_failure_skips_commit (recording_check answer) recording_commit
                env log Hu) as [_ ->].
    reflexivity.
Qed.

(** ** The quota error *)

(** C5: when the check refuses, [createSession] throws the quota error whose
    text is chosen by (isGuest, plan) and carries the limit the check
    reported; when that is the caller's limit the texts are the sign-in
    prompt with 3, the upgrade prompt with 5 and the come-back-tomorrow
    message with 20. *)
Theorem createSession_quota_message :
  forall (St : Type) (hasRemainingMessages : string -> bool -> Z -> Async St Usage)
         (incrementMessageCount : string -> bool -> Z -> Async St unit)
         (env : Env) (s s1 : St) (usage : Usage),
    hasRemainingMessages (caller_identifier env) (caller_isGuest env) (caller_limit env) s
    = (Returns usage, s1) ->
    allowed usage = false ->
    limit usage = caller_limit env ->
    createSession hasRemainingMessages incrementMessageCount env s =
    (Throws (Error
       match caller_isGuest env, caller_plan env with
       | true, _ =>
           "Has alcanzado el límite de 3 mensajes diarios. Inicia sesión para obtener 5 mensajes al día."
       | false, free =>
           "Has alcanzado el límite de 5 mensajes diarios. Actualiza a Recruiter para obtener 20 mensajes al día."
       | false, recruiter =>
           "Has alcanzado el límite de 20 mensajes diarios. Vuelve mañana para continuar."
       end), s1).
Proof.
  intros St has incr env s s1 usage Hcheck Hno Hlimit.
  rewrite (createSession_refused has incr env s s1 usage Hcheck Hno).
  rewrite Hlimit. unfold caller_limit. rewrite quota_message_literal. reflexivity.
Qed.

(** ** Quota before configuration *)

(** C10: the quota check comes before the configuration checks.  A refused
    check ends [createSession] with the quota error whatever the
    configuration, and a configuration error is thrown only when the check
    allowed the call. *)
Theorem createSession_quota_before_configuration :
  forall (St : Type) (hasRemainingMessages : string -> bool -> Z -> Async St Usage)
         (incrementMessageCount : string -> bool -> Z -> Async St unit)
         (env : Env) (s s1 : St) (usage : Usage),
    hasRemainingMessages (caller_identifier env) (caller_isGuest env) (caller_limit env) s
    = (Returns usage, s1) ->
    (allowed usage = false ->
     fst (createSession hasRemainingMessages incrementMessageCount env s)
     = Throws (Error (quota_message (caller_isGuest env) (caller_plan env) (limit usage)))) /\
    (fst (createSession hasRemainingMessages incrementMessageCount env s)
     = Throws (Error "OPENAI_API_KEY not configured") \/
     fst (createSession hasRemainingMessages incrementMessageCount env s)
     = Throws (Error "WORKFLOW_ID not configured") ->
     allowed usage = true).
Proof.
  intros St has incr env s s1 usage Hcheck. split.
  - intros Hno. rewrite (createSession_refused has incr env s s1 usage Hcheck Hno). reflexivity.
  - intros Hcfg. destruct (allowed usage) eqn:Hal; [reflexivity|].
    rewrite (createSession_refused has incr env s s1 usage Hcheck Hal) in Hcfg. cbn in Hcfg.
    destruct (quota_message_head (caller_isGuest env) (caller_plan env) (limit usage)) as [rest Hq].
    rewrite Hq in Hcfg. destruct Hcfg as [H|H]; discriminate H.
Qed.

(** ** Identity of the caller *)

Lemma caller_identity_by_spec (env : Env) :
  auth_userId env <> Some "" ->
  (caller_identifier env, caller_isGuest env) = identity_by_spec env.
Proof.
  unfold caller_identifier, caller_isGuest, identity_by_spec, truthy_str.
  destruct (auth_userId env) as [userId|]; cbn.
  - intros Hne. destruct (String.eqb_spec userId ""); [congruence|reflexivity].
  - intros _. destruct (x_forwarded_for env); reflexivity.
Qed.

(** C8: identity resolution always reaches the quota check, and the check is
    asked about the signed-in user id with isGuest false, or, without a
    signed-in user, about the value of x-forwarded-for (127.0.0.1 when the
    header is absent) with isGuest true. *)
Theorem createSession_identity :
  forall (env : Env) (answer : string -> bool -> Z -> Usage),
    auth_userId env <> Some "" ->
    snd (createSession (recording_check answer) recording_commit env []) !! 0%nat
    = Some (CheckCall (fst (identity_by_spec env)) (snd (identity_by_spec env)) (caller_limit env)).
Proof.
  intros env answer Hne.
  rewrite <- (caller_identity_by_spec env Hne). cbn [fst snd].
  rewrite createSession_unfold. unfold recording_check, recording_commit. cbn [app].
  destruct (allowed _); [|reflexivity].
  destruct (provision_phase env); reflexivity.
Qed.

(** An empty user id counts as no user id. *)
Lemma empty_userId_is_guest (env : Env) :
  auth_userId env = Some "" ->
  caller_isGuest env = true /\
  caller_identifier env = default "127.0.0.1" (x_forwarded_for env).
Proof.
  unfold caller_isGuest, caller_identifier. intros ->. split; reflexivity.
Qed.

(** ** The failures of session creation *)

Lemma provision_phase_throws (env : Env) (e : JsExn) :
  provision_phase env = Throws e ->
  e = Error "OPENAI_API_KEY not configured" \/
  e = Error "WORKFLOW_ID not configured" \/
  (exists response body,
      external_call env = Returns response /\ text response = Returns body /\
      e = Error ("Failed to create session: " +:+ body)) \/
  external_call env = Throws e \/
  (exists response,
      external_call env = Returns response /\
      (text response = Throws e \/ json response = Throws e)).
Proof.
  unfold provision_phase.
  destruct (truthy_str (OPENAI_API_KEY env)); cbn; [|intros [= <-]; auto].
  destruct (truthy_str (WORKFLOW_ID env)); cbn; [|intros [= <-]; auto].
  destruct (external_call env) as [response|e']; cbn; [|intros [= <-]; auto].
  destruct (ok response); cbn.
  - intros H. do 4 right. eauto.
  - destruct (text response) as [body|e'] eqn:Ht; cbn; intros [= <-].
    + right. right. left. eauto.
    + do 4 right. eauto.
Qed.

(** The four texts of the errors [createSession] constructs differ from one
    another, whatever the limit and the response body. *)
Lemma own_error_texts_differ (isGuest : bool) (plan : Plan) (limit : Z) (body : string) :
  quota_message isGuest plan limit <> "OPENAI_API_KEY not configured" /\
  quota_message isGuest plan limit <> "WORKFLOW_ID not configured" /\
  quota_message isGuest plan limit <> "Failed to create session: " +:+ body /\
  "OPENAI_API_KEY not configured" <> "Failed to create session: " +:+ body /\
  "WORKFLOW_ID not configured" <> "Failed to create session: " +:+ body /\
  "OPENAI_API_KEY not configured" <> "WORKFLOW_ID not configured".
Proof.
  destruct (quota_message_head isGuest plan limit) as [rest ->].
  repeat split; cbn; discriminate.
Qed.

(** C7, as the code has it: a failure of [createSession] is either one of
    the four errors it constructs itself, each a plain [Error] that carries
    none of the three kinds in its type and differs from the others by its
    message text alone, or the exception of an awaited call (the tracker,
    [fetch], reading the response, reading [client_secret]) passed on
    unchanged. *)
Theorem createSession_failure_forms :
  forall (St : Type) (hasRemainingMessages : string -> bool -> Z -> Async St Usage)
         (incrementMessageCount : string -> bool -> Z -> Async St unit)
         (env : Env) (s s' : St) (e : JsExn),
    createSession hasRemainingMessages incrementMessageCount env s = (Throws e, s') ->
    own_error env e \/ passed_on hasRemainingMessages incrementMessageCount env s e.
Proof.
  intros St has incr env s s' e. unfold own_error, passed_on. rewrite createSession_unfold.
  destruct (has _ _ _ s) as [[usage|e0] s1] eqn:Hcheck; cbn [fst].
  2:{ intros [= <- <-]. auto. }
  destruct (allowed usage).
  2:{ intros [= <- <-]. left. repeat split; eauto. }
  destruct (provision_phase env) as [data|e0] eqn:Hprov.
  - assert (Hjson : exists response,
               external_call env = Returns response /\ json response = Returns data).
    { revert Hprov. unfold provision_phase.
      destruct (truthy_str (OPENAI_API_KEY env)); cbn; [|discriminate].
      destruct (truthy_str (WORKFLOW_ID env)); cbn; [|discriminate].
      destruct (external_call env) as [response|]; cbn; [|discriminate].
      destruct (ok response); cbn; [eauto|].
      destruct (text response); discriminate. }
    destruct Hjson as (response & Hcall & Hjson).
    destruct (incr _ _ _ s1) as [[[]|e0] s2] eqn:Hincr.
    + intros [= Hget <-]. do 3 right. exists response. split; [exact Hcall|].
      do 2 right. exists data. split; [exact Hjson|]. left. exact Hget.
    + intros [= <- <-]. do 3 right. exists response. split; [exact Hcall|].
      do 2 right. exists data. split; [exact Hjson|]. right. exists s1. rewrite Hincr. reflexivity.
  - intros [= <- <-].
    destruct (provision_phase_throws env e0 Hprov)
      as [->|[->|[(response & body & Hcall & Ht & ->)|[Hcall|(response & Hcall & Hr)]]]].
    + left. repeat split; auto.
    + left. repeat split; auto.
    + left. repeat split; eauto 6.
    + auto.
    + do 3 right. exists response. split; [exact Hcall|]. destruct Hr; auto.
Qed.

(** ** The job-fit endpoint *)

(** C9, as the code has it: once the request body is read and the API key
    is present, the endpoint answers the generic analysis failure whenever
    the upstream call fails or its answer cannot be read or parsed, and
    otherwise answers the parsed object as it is, whatever its structure.
    It never throws. *)
Theorem POST_outcome :
  forall (JSON_parse : JsVal -> Outcome JsVal) (env : FitEnv)
         (body jobDescription : JsVal) (apiKey : string),
    req_json env = Returns body ->
    get body "jobDescription" = Returns jobDescription ->
    fit_OPENAI_API_KEY env = Some apiKey ->
    apiKey <> "" ->
    POST JSON_parse env =
    Returns match completion JSON_parse (fit_fetch env apiKey jobDescription) with
            | Some object => Response_json object
            | None => error_reply "Failed to analyze job fit"
            end.
Proof.
  intros JSON_parse env body jobDescription apiKey Hreq Hjd Hkey Hne.
  unfold POST, POST_try, completion, completion_content.
  rewrite Hreq. cbn. rewrite Hjd. cbn. rewrite Hkey. cbn.
  destruct (String.eqb_spec apiKey ""); [contradiction|]. cbn.
  destruct (fit_fetch env apiKey jobDescription) as [response|e]; cbn; [|reflexivity].
  destruct (ok response); cbn.
  - destruct (json response) as [data|e]; cbn; [|reflexivity].
    destruct (get data "choices") as [choices|e]; cbn; [|reflexivity].
    destruct (get_first choices) as [choice|e]; cbn; [|reflexivity].
    destruct (get choice "message") as [message|e]; cbn; [|reflexivity].
    destruct (get message "content") as [content|e]; cbn; [|reflexivity].
    destruct (JSON_parse content); reflexivity.
  - destruct (text response); reflexivity.
Qed.

(** [POST] answers in every case. *)
Lemma POST_returns (JSON_parse : JsVal -> Outcome JsVal) (env : FitEnv) :
  exists reply, POST JSON_parse env = Returns reply.
Proof. unfold POST. destruct (POST_try JSON_parse env); cbn; eauto. Qed.

(** ** Requests one after another, and requests that overlap *)

Section RunFacts.

Context {St : Type}.
Variable hasRemainingMessages : string -> bool -> Z -> Async St Usage.
Variable incrementMessageCount : string -> bool -> Z -> Async St unit.
Variable env : Env.

(** Three steps take a request from its start to its end, and the three
    together are [createSession]. *)
Lemma run_request (i : nat) (rest : list nat) (pool : list Proc) (s : St) :
  pool !! i = Some Started ->
  run hasRemainingMessages incrementMessageCount env (i :: i :: i :: rest) pool s
  = run hasRemainingMessages incrementMessageCount env rest
      (<[i := Finished (fst (createSession hasRemainingMessages incrementMessageCount env s))]> pool)
      (snd (createSession hasRemainingMessages incrementMessageCount env s)).
Proof.
  intros Hi. pose proof (lookup_lt_Some _ _ _ Hi) as Hlt.
  rewrite createSession_unfold. cbn [run]. rewrite Hi.
  unfold proc_step at 1. unfold check_phase, mbind, Async_bind, mret, Async_ret, throw.
  destruct (hasRemainingMessages _ _ _ s) as [[usage|e] s1].
  - destruct (allowed usage); cbn [negb fst snd].
    + rewrite list_lookup_insert_eq by exact Hlt. cbn [proc_step].
      destruct (provision_phase env) as [data|e].
      * rewrite list_insert_insert_eq.
        rewrite list_lookup_insert_eq by exact Hlt. cbn [proc_step].
        unfold commit_phase, mbind, Async_bind, await.
        destruct (incrementMessageCount _ _ _ s1) as [[[]|e] s2];
          rewrite list_insert_insert_eq; reflexivity.
      * rewrite list_insert_insert_eq.
        rewrite list_lookup_insert_eq by exact Hlt. cbn [proc_step].
        rewrite list_insert_insert_eq. reflexivity.
    + rewrite list_lookup_insert_eq by exact Hlt. cbn [proc_step].
      rewrite list_insert_insert_eq.
      rewrite list_lookup_insert_eq by exact Hlt. cbn [proc_step].
      rewrite list_insert_insert_eq. reflexivity.
  - cbn [fst snd].
    rewrite list_lookup_insert_eq by exact Hlt. cbn [proc_step].
    rewrite list_insert_insert_eq.
    rewrite list_lookup_insert_eq by exact Hlt. cbn [proc_step].
    rewrite list_insert_insert_eq. reflexivity.
Qed.

End RunFacts.

Lemma issued_app (xs ys : list Proc) : issued (xs ++ ys) = (issued xs + issued ys)%nat.
Proof. unfold issued. rewrite List.filter_app, length_app. reflexivity. Qed.

Lemma rejected_app (xs ys : list Proc) : rejected (xs ++ ys) = (rejected xs + rejected ys)%nat.
Proof. unfold rejected. rewrite List.filter_app, length_app. reflexivity. Qed.

Lemma issued_replicate (n : nat) (p : Proc) :
  issued (replicate n p) = if is_issued p then n else 0%nat.
Proof.
  unfold issued. induction n as [|n IH]; cbn; [destruct (is_issued p); reflexivity|].
  destruct (is_issued p) eqn:Hp; cbn; rewrite IH; reflexivity.
Qed.

Lemma rejected_replicate (n : nat) (p : Proc) :
  rejected (replicate n p) = if is_rejected p then n else 0%nat.
Proof.
  unfold rejected. induction n as [|n IH]; cbn; [destruct (is_rejected p); reflexivity|].
  destruct (is_rejected p) eqn:Hp; cbn; rewrite IH; reflexivity.
Qed.

Section SerialRequests.

Variable today : nat.
Variable env : Env.

Abbreviation tracked_session :=
  (createSession (MessageTracking.hasRemainingMessages today)
     (MessageTracking.incrementMessageCount today) env).
Abbreviation tracked_run :=
  (run (MessageTracking.hasRemainingMessages today)
     (MessageTracking.incrementMessageCount today) env).
Abbreviation count_of store := (MessageTracking.usage_count store (caller_identifier env) today).
Abbreviation quota_error :=
  (Error (quota_message (caller_isGuest env) (caller_plan env) (caller_limit env))).

(** [createSession] against the tracker of section 4.4. *)
Lemma createSession_tracked (store : gmap (string * nat) Z) :
  tracked_session store =
  if Z.ltb (count_of store) (caller_limit env) then
    match provision_phase env with
    | Throws e => (Throws e, store)
    | Returns data =>
        (get data "client_secret",
         <[(caller_identifier env, today) := count_of store + 1]> store)
    end
  else (Throws quota_error, store).
Proof.
  rewrite createSession_unfold.
  unfold MessageTracking.hasRemainingMessages, MessageTracking.incrementMessageCount.
  cbn [allowed limit]. destruct (Z.ltb _ _); [|reflexivity].
  destruct (provision_phase env); reflexivity.
Qed.

Variable data secret : JsVal.
Hypothesis upstream_answers : provision_phase env = Returns data.
Hypothesis secret_present : get data "client_secret" = Returns secret.

(** [m] requests one after another, the first [room] of which the day's
    allowance still covers. *)
Lemma run_serial (m : nat) :
  forall (room : nat) (done : list Proc) (store : gmap (string * nat) Z),
    count_of store = caller_limit env - Z.of_nat room ->
    exists store',
      tracked_run (serial (length done) m) (done ++ replicate m Started) store
      = (done ++ replicate (Nat.min m room) (Finished (Returns secret))
              ++ replicate (m - room) (Finished (Throws quota_error)), store') /\
      count_of store' = caller_limit env - Z.of_nat room + Z.of_nat (Nat.min m room).
Proof.
  induction m as [|m IH]; intros room done store Hcount.
  - exists store. split; [|lia].
    rewrite Nat.sub_0_l. cbn. rewrite app_nil_r. reflexivity.
  - cbn [serial replicate].
    rewrite run_request by (apply list_lookup_middle; reflexivity).
    rewrite insert_app_r_alt by lia. rewrite Nat.sub_diag. cbn [insert list_insert].
    rewrite createSession_tracked, upstream_answers, secret_present.
    destruct room as [|room].
    + assert (Hfull : Z.ltb (count_of store) (caller_limit env) = false)
        by (apply Z.ltb_ge; lia).
      rewrite Hfull. cbn [fst snd].
      destruct (IH 0%nat (done ++ [Finished (Throws quota_error)]) store Hcount)
        as (store' & Hrun & Hcount').
      exists store'. split; [|rewrite Hcount'; lia].
      rewrite length_app in Hrun. cbn [length] in Hrun.
      rewrite Nat.add_1_r in Hrun. rewrite <- !app_assoc in Hrun. cbn [app] in Hrun.
      rewrite Hrun. rewrite !Nat.min_0_r, !Nat.sub_0_r. reflexivity.
    + assert (Hroom : Z.ltb (count_of store) (caller_limit env) = true)
        by (apply Z.ltb_lt; lia).
      rewrite Hroom. cbn [fst snd].
      assert (Hnext :
        MessageTracking.usage_count
          (<[(caller_identifier env, today) := count_of store + 1]> store)
          (caller_identifier env) today
        = caller_limit env - Z.of_nat room).
      { unfold MessageTracking.usage_count at 1. rewrite lookup_insert_eq. cbn. lia. }
      destruct (IH room (done ++ [Finished (Returns secret)]) _ Hnext)
        as (store' & Hrun & Hcount').
      exists store'. split; [|rewrite Hcount'; lia].
      rewrite length_app in Hrun. cbn [length] in Hrun.
      rewrite Nat.add_1_r in Hrun. rewrite <- !app_assoc in Hrun. cbn [app] in Hrun.
      rewrite Hrun. reflexivity.
Qed.

End SerialRequests.

Lemma caller_limit_nonneg (env : Env) : 0 <= caller_limit env.
Proof.
  unfold caller_limit, getMessageLimit.
  destruct (caller_isGuest env); [lia|]. destruct (caller_plan env); lia.
Qed.

(** C6, as the code has it: for one identity with daily limit L and a fresh
    count, L + k requests made one after another, each met by a successful
    external call, end with exactly L credentials and L committed increments,
    and with k quota errors. *)
Theorem serial_requests_respect_quota :
  forall (today : nat) (env : Env) (data secret : JsVal)
         (store : gmap (string * nat) Z) (k : nat),
    provision_phase env = Returns data ->
    get data "client_secret" = Returns secret ->
    MessageTracking.usage_count store (caller_identifier env) today = 0 ->
    let L := Z.to_nat (caller_limit env) in
    let result :=
      run (MessageTracking.hasRemainingMessages today)
        (MessageTracking.incrementMessageCount today) env
        (serial 0 (L + k)) (replicate (L + k) Started) store in
    fst result =
      replicate L (Finished (Returns secret)) ++
      replicate k (Finished (Throws (Error (quota_message (caller_isGuest env)
                                              (caller_plan env) (caller_limit env))))) /\
    issued (fst result) = L /\
    rejected (fst result) = k /\
    MessageTracking.usage_count (snd result) (caller_identifier env) today = caller_limit env.
Proof.
  intros today env data secret store k Hprov Hsecret Hfresh L result.
  pose proof (caller_limit_nonneg env) as Hnn.
  assert (Hcount : MessageTracking.usage_count store (caller_identifier env) today
                   = caller_limit env - Z.of_nat L) by (unfold L; lia).
  destruct (run_serial today env data secret Hprov Hsecret (L + k) L [] store Hcount)
    as (store' & Hrun & Hcount').
  cbn [length app] in Hrun. subst result. rewrite Hrun. cbn [fst snd].
  replace (Nat.min (L + k) L) with L in * by lia.
  replace (L + k - L)%nat with k by lia.
  split; [reflexivity|]. split; [|split].
  - rewrite issued_app, !issued_replicate. cbn. lia.
  - rewrite rejected_app, !rejected_replicate. cbn. lia.
  - rewrite Hcount'. unfold L. lia.
Qed.

(** Four requests of the guest that overlap: each passes the check before
    any of them commits.  The limit is 3, yet four credentials are issued,
    none is refused and the count ends at 4. *)
Lemma overlapping_requests_exceed_quota :
  let result :=
    run (MessageTracking.hasRemainingMessages a_day)
      (MessageTracking.incrementMessageCount a_day) env_guest
      [0; 1; 2; 3; 0; 1; 2; 3; 0; 1; 2; 3]%nat (replicate 4 Started)
      (∅ : gmap (string * nat) Z) in
  caller_limit env_guest = 3 /\
  fst result = replicate 4 (Finished (Returns (JStr "cs_live_1"))) /\
  issued (fst result) = 4%nat /\
  rejected (fst result) = 0%nat /\
  MessageTracking.usage_count (snd result) "203.0.113.7" a_day = 4.
Proof. vm_compute. repeat split; reflexivity. Qed.

(** The network is down: the exception [fetch] rejects with reaches the
    caller as it is, and it is of none of the three kinds; the quota error
    is a plain [Error] of none of the three kinds either. *)
Lemma createSession_passes_on_fetch_exception :
  external_call env_network_down = Throws (TypeError "fetch failed") /\
  fst (createSession (MessageTracking.hasRemainingMessages a_day)
         (MessageTracking.incrementMessageCount a_day) env_network_down
         (∅ : gmap (string * nat) Z))
  = Throws (TypeError "fetch failed") /\
  error_kind (TypeError "fetch failed") = None /\
  fst (createSession (MessageTracking.hasRemainingMessages a_day)
         (MessageTracking.incrementMessageCount a_day) env_guest store_guest_exhausted)
  = Throws (MkExn "Error"
      "Has alcanzado el límite de 3 mensajes diarios. Inicia sesión para obtener 5 mensajes al día.") /\
  error_kind (MkExn "Error"
      "Has alcanzado el límite de 3 mensajes diarios. Inicia sesión para obtener 5 mensajes al día.")
  = None.
Proof. vm_compute. repeat split; reflexivity. Qed.

(** The model answers with an empty object: it parses, it is not of the
    expected structure, and the endpoint answers it with status 200 instead
    of the analysis failure. *)
Lemma POST_returns_unvalidated_object :
  completion parse_sample (fit_fetch env_fit_empty_object "sk-test" (JStr "Senior Rust engineer"))
  = Some (JObj []) /\
  is_assessment_result (JObj []) = false /\
  POST parse_sample env_fit_empty_object = Returns (MkReply 200 (JObj [])) /\
  POST parse_sample env_fit_empty_object <> Returns (error_reply "Failed to analyze job fit").
Proof. vm_compute. repeat split; try reflexivity. discriminate. Qed.

(** ** The theorems at sample inputs *)

Lemma getUserPlan_precedence_witness :
  marks_recruiter (publicMetadata user_in_recruiter_org) "subscriptionPlan" = false /\
  getUserPlan (clerk_getUser env_recruiter) "user_2abc" = Returns recruiter.
Proof.
  split; [reflexivity|].
  apply (getUserPlan_precedence (clerk_getUser env_recruiter) "user_2abc" user_in_recruiter_org);
    reflexivity.
Defined.

Lemma getUserPlan_fails_closed_witness :
  lookup_failed (Returns user_with_text_memberships) = true /\
  getUserPlan (fun _ => Returns user_with_text_memberships) "user_2abc" = Returns free.
Proof.
  split; [reflexivity|].
  apply (getUserPlan_fails_closed (fun _ => Returns user_with_text_memberships) "user_2abc").
  reflexivity.
Defined.

Lemma createSession_commit_only_after_success_witness :
  upstream_ok env_network_down = false /\
  MessageTracking.usage_count
    (snd (createSession (MessageTracking.hasRemainingMessages a_day)
            (MessageTracking.incrementMessageCount a_day) env_network_down
            (∅ : gmap (string * nat) Z))) "203.0.113.7" a_day
  = MessageTracking.usage_count (∅ : gmap (string * nat) Z) "203.0.113.7" a_day.
Proof.
  split; [reflexivity|].
  apply (createSession_commit_only_after_success env_network_down).
  reflexivity.
Defined.

Lemma createSession_quota_message_witness :
  createSession (MessageTracking.hasRemainingMessages a_day)
    (MessageTracking.incrementMessageCount a_day) env_guest store_guest_exhausted
  = (Throws (Error
       "Has alcanzado el límite de 3 mensajes diarios. Inicia sesión para obtener 5 mensajes al día."),
     store_guest_exhausted).
Proof.
  apply (createSession_quota_message _ (MessageTracking.hasRemainingMessages a_day)
           (MessageTracking.incrementMessageCount a_day) env_guest
           store_guest_exhausted store_guest_exhausted (MkUsage false 0 3));
    vm_compute; reflexivity.
Defined.

Lemma serial_requests_respect_quota_witness :
  let result :=
    run (MessageTracking.hasRemainingMessages a_day)
      (MessageTracking.incrementMessageCount a_day) env_guest
      (serial 0 (3 + 2)) (replicate (3 + 2) Started) (∅ : gmap (string * nat) Z) in
  issued (fst result) = 3%nat /\ rejected (fst result) = 2%nat /\
  MessageTracking.usage_count (snd result) "203.0.113.7" a_day = 3.
Proof.
  apply (serial_requests_respect_quota a_day env_guest session_data (JStr "cs_live_1")
           (∅ : gmap (string * nat) Z) 2%nat); reflexivity.
Defined.

Lemma createSession_failure_forms_witness :
  own_error env_recruiter (Error "Failed to create session: upstream unavailable") \/
  passed_on (MessageTracking.hasRemainingMessages a_day)
    (MessageTracking.incrementMessageCount a_day) env_recruiter
    (∅ : gmap (string * nat) Z) (Error "Failed to create session: upstream unavailable").
Proof.
  apply (createSession_failure_forms _ (MessageTracking.hasRemainingMessages a_day)
           (MessageTracking.incrementMessageCount a_day) env_recruiter
           (∅ : gmap (string * nat) Z) (∅ : gmap (string * nat) Z)).
  vm_compute. reflexivity.
Defined.

Lemma createSession_identity_witness :
  snd (createSession (recording_check answer_fresh) recording_commit env_guest []) !! 0%nat
  = Some (CheckCall "203.0.113.7" true 3).
Proof.
  apply (createSession_identity env_guest answer_fresh). discriminate.
Defined.

Lemma POST_outcome_witness :
  POST parse_sample env_fit_no_json = Returns (error_reply "Failed to analyze job fit").
Proof.
  apply (POST_outcome parse_sample env_fit_no_json
           (JObj [("jobDescription", JStr "Senior Rust engineer")])
           (JStr "Senior Rust engineer") "sk-test");
    [reflexivity | reflexivity | reflexivity | discriminate].
Defined.

Lemma createSession_quota_before_configuration_witness :
  truthy_str (OPENAI_API_KEY env_unconfigured) = false /\
  fst (createSession (MessageTracking.hasRemainingMessages a_day)
         (MessageTracking.incrementMessageCount a_day) env_unconfigured store_guest_exhausted)
  = Throws (Error
      "Has alcanzado el límite de 3 mensajes diarios. Inicia sesión para obtener 5 mensajes al día.").
Proof.
  split; [reflexivity|].
  apply (createSession_quota_before_configuration _ (MessageTracking.hasRemainingMessages a_day)
           (MessageTracking.incrementMessageCount a_day) env_unconfigured
           store_guest_exhausted store_guest_exhausted (MkUsage false 0 3));
    vm_compute; reflexivity.
Defined.

(** ** Sample runs *)

(** The first request of a guest is answered with the credential and
    counted. *)
Example createSession_guest_first_request :
  let result :=
    createSession (MessageTracking.hasRemainingMessages a_day)
      (MessageTracking.incrementMessageCount a_day) env_guest (∅ : gmap (string * nat) Z) in
  fst result = Returns (JStr "cs_live_1") /\
  MessageTracking.usage_count (snd result) "203.0.113.7" a_day = 1.
Proof. vm_compute. split; reflexivity. Qed.

(** The request the guest's session is created with. *)
Example session_request_of_guest :
  session_request "sk-test" "wf_1" (caller_sessionUserId env_guest)
  = MkRequest "https://api.openai.com/v1/chatkit/sessions" "POST"
      [("Content-Type", "application/json"); ("Authorization", "Bearer sk-test");
       ("OpenAI-Beta", "chatkit_beta=v1")]
      (JObj [("workflow", JObj [("id", JStr "wf_1")]);
             ("user", JStr "guest_1700000000000_82mvyr")]).
Proof. vm_compute. reflexivity. Qed.

(** A signed-in recruiter is told to come back tomorrow. *)
Example recruiter_is_told_to_come_back :
  fst (createSession (recording_check answer_exhausted) recording_commit env_recruiter [])
  = Throws (Error "Has alcanzado el límite de 20 mensajes diarios. Vuelve mañana para continuar.").
Proof. vm_compute. reflexivity. Qed.

(** A [null] entry ahead of the recruiter membership makes the resolver
    fall back to free; behind it, the entry is never visited. *)
Example null_membership_ahead :
  getUserPlan
    (fun _ => Returns (JObj [("organizationMemberships",
       JArr [JNull;
             JObj [("organization",
                    JObj [("publicMetadata", JObj [("plan", JStr "recruiter")])])]])]))
    "user_2abc" = Returns free.
Proof. reflexivity. Qed.

Example null_membership_behind :
  getUserPlan
    (fun _ => Returns (JObj [("organizationMemberships",
       JArr [JObj [("organization",
                    JObj [("publicMetadata", JObj [("plan", JStr "recruiter")])])];
             JNull])]))
    "user_2abc" = Returns recruiter.
Proof. reflexivity. Qed.

(** A deployment without its API key answers the job-fit request with the
    configuration error, not with the analysis failure. *)
Example POST_without_key :
  POST parse_sample
    (MkFitEnv (Returns (JObj [("jobDescription", JStr "Senior Rust engineer")])) None
       (fun _ _ => Throws (TypeError "fetch failed")))
  = Returns (error_reply "Server configuration error").
Proof. reflexivity. Qed.

(** * Further properties *)

(** ** The usage query *)

Section UsageQueryFacts.

Context {St : Type}.
Variable hasRemainingMessages : string -> bool -> Z -> Async St Usage.
Variable env : Env.

(** [getMessageUsage] is the check of [createSession], for the same
    identity and limit, paired with the plan. *)
Lemma getMessageUsage_unfold (s : St) :
  getMessageUsage hasRemainingMessages env s =
  match hasRemainingMessages (caller_identifier env) (caller_isGuest env) (caller_limit env) s with
  | (Returns usage, s1) => (Returns (usage, caller_plan env), s1)
  | (Throws e, s1) => (Throws e, s1)
  end.
Proof.
  unfold getMessageUsage, caller_limit, caller_identifier, caller_isGuest, caller_plan.
  unfold mbind, Async_bind, mret, Async_ret, await.
  destruct (truthy_str (auth_userId env)) eqn:Hu; cbn [negb].
  - rewrite caller_plan_resolved at 1.
    destruct (hasRemainingMessages _ _ _ s) as [[usage|e] s1]; reflexivity.
  - destruct (hasRemainingMessages _ _ _ s) as [[usage|e] s1]; reflexivity.
Qed.

End UsageQueryFacts.

Lemma getCurrentPlan_caller_plan (env : Env) :
  getCurrentPlan env = Returns (caller_plan env).
Proof.
  unfold getCurrentPlan, caller_plan.
  destruct (truthy_str (auth_userId env)); cbn [negb]; [|reflexivity].
  apply caller_plan_resolved.
Qed.

(** X1: what [getMessageUsage] reports is what [createSession] enforces.
    Run on the same store, a report of nothing remaining means that
    [createSession] throws the quota error for the reported plan and limit,
    and a report of messages remaining means that [createSession] goes on
    from the state the check left to the external call and the commit. *)
Theorem getMessageUsage_agrees_with_createSession :
  forall (St : Type) (hasRemainingMessages : string -> bool -> Z -> Async St Usage)
         (incrementMessageCount : string -> bool -> Z -> Async St unit)
         (env : Env) (s s1 : St) (usage : Usage) (plan : Plan),
    getMessageUsage hasRemainingMessages env s = (Returns (usage, plan), s1) ->
    (allowed usage = false ->
     createSession hasRemainingMessages incrementMessageCount env s
     = (Throws (Error (quota_message (caller_isGuest env) plan (limit usage))), s1)) /\
    (allowed usage = true ->
     createSession hasRemainingMessages incrementMessageCount env s
     = (data ← await (provision_phase env); commit_phase incrementMessageCount env data) s1).
Proof.
  intros St has incr env s s1 usage plan. rewrite getMessageUsage_unfold, createSession_unfold.
  destruct (has _ _ _ s) as [[u|e] s0]; [|discriminate].
  intros [= <- <- <-]. split; intros Hal; rewrite Hal; [reflexivity|].
  unfold mbind, Async_bind, await, commit_phase.
  destruct (provision_phase env) as [data|e]; [|reflexivity].
  unfold mbind, Async_bind, await.
  destruct (incr _ _ _ s0) as [[[]|e] s2]; reflexivity.
Qed.

(** X2: [getMessageUsage] fails only when the check itself throws, and then
    with the exception and the state of the check; no outcome of the
    provider lookup makes it fail. *)
Theorem getMessageUsage_fails_with_check :
  forall (St : Type) (hasRemainingMessages : string -> bool -> Z -> Async St Usage)
         (env : Env) (s s1 : St) (e : JsExn),
    getMessageUsage hasRemainingMessages env s = (Throws e, s1) ->
    hasRemainingMessages (caller_identifier env) (caller_isGuest env) (caller_limit env) s
    = (Throws e, s1).
Proof.
  intros St has env s s1 e. rewrite getMessageUsage_unfold.
  destruct (has _ _ _ s) as [[u|e0] s0]; [discriminate|].
  intros [= <- <-]. reflexivity.
Qed.

(** X3: [getCurrentPlan] never throws, answers free for a caller without a
    user id whatever the provider would say, and answers the plan that
    [getMessageUsage] reports. *)
Theorem getCurrentPlan_agrees_with_getMessageUsage :
  forall env : Env,
    exists plan,
      getCurrentPlan env = Returns plan /\
      (truthy_str (auth_userId env) = false -> plan = free) /\
      (forall (St : Type) (hasRemainingMessages : string -> bool -> Z -> Async St Usage)
              (s s1 : St) (usage : Usage) (plan' : Plan),
          getMessageUsage hasRemainingMessages env s = (Returns (usage, plan'), s1) ->
          plan' = plan).
Proof.
  intros env. exists (caller_plan env). split; [apply getCurrentPlan_caller_plan|]. split.
  - unfold caller_plan. intros ->. reflexivity.
  - intros St has s s1 usage plan'. rewrite getMessageUsage_unfold.
    destruct (has _ _ _ s) as [[u|e] s0]; [|discriminate].
    intros [= _ <- _]. reflexivity.
Qed.

(** ** The limit the check is asked about *)

Lemma getUserPlan_free_on_failure (getUser : string -> Outcome JsVal) (userId : string) :
  lookup_failed (getUser userId) = true ->
  getUserPlan getUser userId = Returns free.
Proof.
  unfold lookup_failed, malformed_user. intros Hf.
  pose proof (getUserPlan_try_outcome getUser userId) as H.
  destruct (getUser userId) as [user|e] eqn:Hget.
  - destruct (is_object user) eqn:Hobj; cbn in Hf.
    + rewrite Hf in H. destruct H as [e He]. unfold getUserPlan. rewrite He. reflexivity.
    + apply (getUserPlan_not_object getUser userId user Hget Hobj).
  - destruct H as [e' He]. unfold getUserPlan. rewrite He. reflexivity.
Qed.

Lemma createSession_first_call (env : Env) (answer : string -> bool -> Z -> Usage) :
  snd (createSession (recording_check answer) recording_commit env []) !! 0%nat
  = Some (CheckCall (caller_identifier env) (caller_isGuest env) (caller_limit env)).
Proof.
  rewrite createSession_unfold. unfold recording_check, recording_commit. cbn [app].
  destruct (allowed _); [|reflexivity].
  destruct (provision_phase env); reflexivity.
Qed.

(** X4: a failure of the identity provider does not fail the callers of
    [getUserPlan]: for a signed-in user whose lookup throws or delivers
    malformed data, [getCurrentPlan] answers free, [getMessageUsage] reports
    the plan free, and the quota check of [createSession] is asked about the
    user id with the limit 5. *)
Theorem provider_failure_means_free_limit :
  forall (env : Env) (userId : string),
    auth_userId env = Some userId ->
    userId <> "" ->
    lookup_failed (clerk_getUser env userId) = true ->
    getCurrentPlan env = Returns free /\
    (forall answer : string -> bool -> Z -> Usage,
        fst (getMessageUsage (recording_check answer) env [])
        = Returns (answer userId false 5, free) /\
        snd (createSession (recording_check answer) recording_commit env []) !! 0%nat
        = Some (CheckCall userId false 5)).
Proof.
  intros env userId Hauth Hne Hfail.
  assert (Htruthy : truthy_str (auth_userId env) = true).
  { rewrite Hauth. cbn. destruct (String.eqb_spec userId ""); [contradiction|reflexivity]. }
  assert (Hplan : caller_plan env = free).
  { unfold caller_plan. rewrite Htruthy, Hauth. cbn.
    rewrite (getUserPlan_free_on_failure _ _ Hfail). reflexivity. }
  assert (Hid : caller_identifier env = userId).
  { unfold caller_identifier. rewrite Htruthy, Hauth. reflexivity. }
  assert (Hguest : caller_isGuest env = false).
  { unfold caller_isGuest. rewrite Htruthy. reflexivity. }
  assert (Hlimit : caller_limit env = 5).
  { unfold caller_limit. rewrite Hguest, Hplan. reflexivity. }
  split.
  - rewrite getCurrentPlan_caller_plan, Hplan. reflexivity.
  - intros answer. split.
    + rewrite getMessageUsage_unfold. unfold recording_check. cbn [fst].
      rewrite Hid, Hguest, Hlimit, Hplan. reflexivity.
    + rewrite createSession_first_call, Hid, Hguest, Hlimit. reflexivity.
Qed.

(** X5: a caller without a user id is checked as a guest with the limit 3,
    under the forwarded address or 127.0.0.1, whatever the identity provider
    would answer about any user. *)
Theorem guest_is_checked_with_limit_three :
  forall (env : Env) (answer : string -> bool -> Z -> Usage),
    truthy_str (auth_userId env) = false ->
    snd (createSession (recording_check answer) recording_commit env []) !! 0%nat
    = Some (CheckCall (default "127.0.0.1" (x_forwarded_for env)) true 3).
Proof.
  intros env answer Hguest. rewrite createSession_first_call.
  unfold caller_limit, caller_plan, caller_identifier, caller_isGuest.
  rewrite Hguest. reflexivity.
Qed.

(** ** The tracker calls of one session creation *)

(** X6: [createSession] calls the tracker once or twice: the check first,
    and the commit after it exactly when the check allowed the call and the
    external call delivered session data; both calls are about the same
    identifier, guest flag and limit. *)
Theorem createSession_tracker_calls :
  forall (env : Env) (answer : string -> bool -> Z -> Usage) (log : list TrackerCall),
    snd (createSession (recording_check answer) recording_commit env log)
    = log ++
      CheckCall (caller_identifier env) (caller_isGuest env) (caller_limit env) ::
      (if allowed (answer (caller_identifier env) (caller_isGuest env) (caller_limit env))
       then match provision_phase env with
            | Returns _ =>
                [CommitCall (caller_identifier env) (caller_isGuest env) (caller_limit env)]
            | Throws _ => []
            end
       else []).
Proof.
  intros env answer log. rewrite createSession_unfold.
  unfold recording_check, recording_commit.
  destruct (allowed _); [|reflexivity].
  destruct (provision_phase env); cbn [snd]; [|reflexivity].
  rewrite <- app_assoc. reflexivity.
Qed.

(** X7: the commit comes before [client_secret] is read.  Once the check
    has allowed the call, the external call has delivered [data] and the
    commit has returned, the usage is counted whatever [data] is: an object
    yields its [client_secret] property ([undefined] when it has none), and
    [null] or [undefined] make [createSession] throw a TypeError after the
    usage was counted. *)
Theorem createSession_counts_before_reading_secret :
  forall (St : Type) (hasRemainingMessages : string -> bool -> Z -> Async St Usage)
         (incrementMessageCount : string -> bool -> Z -> Async St unit)
         (env : Env) (s s1 s2 : St) (usage : Usage) (data : JsVal),
    hasRemainingMessages (caller_identifier env) (caller_isGuest env) (caller_limit env) s
    = (Returns usage, s1) ->
    allowed usage = true ->
    provision_phase env = Returns data ->
    incrementMessageCount (caller_identifier env) (caller_isGuest env) (caller_limit env) s1
    = (Returns (), s2) ->
    snd (createSession hasRemainingMessages incrementMessageCount env s) = s2 /\
    (forall props, data = JObj props ->
       fst (createSession hasRemainingMessages incrementMessageCount env s)
       = Returns (lookup_prop "client_secret" props)) /\
    (nullish data = true ->
       exists message,
         fst (createSession hasRemainingMessages incrementMessageCount env s)
         = Throws (TypeError message)).
Proof.
  intros St has incr env s s1 s2 usage data Hcheck Hal Hprov Hincr.
  rewrite createSession_unfold, Hcheck, Hal, Hprov, Hincr. cbn [fst snd].
  split; [reflexivity|]. split.
  - intros props ->. reflexivity.
  - destruct data; cbn; intros Hn; try discriminate Hn; eauto.
Qed.

(** ** No external call without need *)

(** X8: unless the check allows the call and the configuration is present,
    [createSession] does not depend on [fetch]: no request reaches the
    session API when the quota is used up, the check fails or the
    deployment lacks its key or workflow id. *)
Theorem createSession_spares_fetch :
  forall (St : Type) (hasRemainingMessages : string -> bool -> Z -> Async St Usage)
         (incrementMessageCount : string -> bool -> Z -> Async St unit)
         (env : Env) (s : St) (f : Request -> Outcome Response),
    (forall usage s1,
        hasRemainingMessages (caller_identifier env) (caller_isGuest env) (caller_limit env) s
        = (Returns usage, s1) ->
        allowed usage = true -> configured env = false) ->
    createSession hasRemainingMessages incrementMessageCount (with_fetch f env) s
    = createSession hasRemainingMessages incrementMessageCount env s.
Proof.
  intros St has incr env s f Hspare. rewrite !createSession_unfold.
  change (caller_identifier (with_fetch f env)) with (caller_identifier env).
  change (caller_isGuest (with_fetch f env)) with (caller_isGuest env).
  change (caller_limit (with_fetch f env)) with (caller_limit env).
  change (caller_plan (with_fetch f env)) with (caller_plan env).
  destruct (has _ _ _ s) as [[usage|e] s1] eqn:Hcheck; [|reflexivity].
  destruct (allowed usage) eqn:Hal; [|reflexivity].
  specialize (Hspare usage s1 eq_refl Hal).
  assert (Hprov : provision_phase (with_fetch f env) = provision_phase env).
  { revert Hspare. unfold configured, provision_phase. cbn [OPENAI_API_KEY WORKFLOW_ID with_fetch].
    destruct (truthy_str (OPENAI_API_KEY env)); cbn; [|reflexivity].
    destruct (truthy_str (WORKFLOW_ID env)); cbn; [discriminate|reflexivity]. }
  rewrite Hprov. reflexivity.
Qed.

(** ** The answers of the job-fit endpoint *)

(** Whether the request body cannot be destructured: [req.json()] throws, or
    it delivers [null] or [undefined]. *)
Lemma POST_unreadable_body (JSON_parse : JsVal -> Outcome JsVal) (env : FitEnv) :
  match req_json env with
  | Throws _ => true
  | Returns body => nullish body
  end = true ->
  POST JSON_parse env = Returns (error_reply "Failed to analyze job fit").
Proof.
  unfold POST, POST_try. destruct (req_json env) as [body|e]; cbn; [|reflexivity].
  intros Hn. destruct (get_nullish body "jobDescription" Hn) as [e ->]. reflexivity.
Qed.

(** X9: the job-fit endpoint answers every request, and with one of three
    answers only: status 500 with the configuration error, status 500 with
    the analysis failure, or status 200 with an object that the completion
    service's answer parsed to. *)
Theorem POST_answers :
  forall (JSON_parse : JsVal -> Outcome JsVal) (env : FitEnv),
    exists reply,
      POST JSON_parse env = Returns reply /\
      (reply = error_reply "Server configuration error" \/
       reply = error_reply "Failed to analyze job fit" \/
       exists object apiKey jobDescription,
         reply = Response_json object /\
         completion JSON_parse (fit_fetch env apiKey jobDescription) = Some object).
Proof.
  intros JSON_parse env. unfold POST, POST_try, completion, completion_content.
  destruct (req_json env) as [body|e]; cbn; [|eauto].
  destruct (get body "jobDescription") as [jobDescription|e]; cbn; [|eauto].
  destruct (truthy_str (fit_OPENAI_API_KEY env)); cbn; [|eauto].
  destruct (fit_fetch env (default "" (fit_OPENAI_API_KEY env)) jobDescription)
    as [response|e] eqn:Hfetch; cbn; [|eauto].
  destruct (ok response) eqn:Hok; cbn.
  - destruct (json response) as [data|e] eqn:Hjson; cbn; [|eauto].
    destruct (get data "choices") as [choices|e] eqn:Hc; cbn; [|eauto].
    destruct (get_first choices) as [choice|e] eqn:Hf; cbn; [|eauto].
    destruct (get choice "message") as [message|e] eqn:Hm; cbn; [|eauto].
    destruct (get message "content") as [content|e] eqn:Hct; cbn; [|eauto].
    destruct (JSON_parse content) as [object|e] eqn:Hp; cbn; [|eauto].
    eexists. split; [reflexivity|]. do 2 right.
    exists object, (default "" (fit_OPENAI_API_KEY env)), jobDescription.
    split; [reflexivity|].
    rewrite Hfetch, Hok, Hjson. cbn. rewrite Hc. cbn. rewrite Hf. cbn. rewrite Hm. cbn.
    rewrite Hct. cbn. rewrite Hp. reflexivity.
  - destruct (text response); cbn; eauto.
Qed.

(** X10: the endpoint reads the request body before it looks at the API
    key, and looks at the key before it calls the completion service.  A
    body that cannot be read is answered with the analysis failure even on a
    deployment without key; a readable body on a deployment without key is
    answered with the configuration error whatever the completion service
    would do. *)
Theorem POST_order_of_checks :
  forall (JSON_parse : JsVal -> Outcome JsVal) (env : FitEnv),
    (match req_json env with
     | Throws _ => true
     | Returns body => nullish body
     end = true ->
     POST JSON_parse env = Returns (error_reply "Failed to analyze job fit")) /\
    (match req_json env with
     | Throws _ => true
     | Returns body => nullish body
     end = false ->
     truthy_str (fit_OPENAI_API_KEY env) = false ->
     POST JSON_parse env = Returns (error_reply "Server configuration error")).
Proof.
  intros JSON_parse env. split; [apply POST_unreadable_body|].
  unfold POST, POST_try. destruct (req_json env) as [body|e]; [|discriminate].
  intros Hn Hkey. cbn. destruct (get_non_nullish body "jobDescription" Hn) as [jd ->]. cbn.
  rewrite Hkey. reflexivity.
Qed.

(** ** The score colours *)

Lemma number_ge_mono (p q : QArith_base.Q) (n : Z) :
  QArith_base.Qle p q -> number_ge (Num p) n = true -> number_ge (Num q) n = true.
Proof.
  cbn. rewrite !QArith_base.Qle_bool_iff. intros Hpq Hn.
  apply QArith_base.Qle_trans with p; assumption.
Qed.

(** X11: the gauge colour and the text colour of the job-fit result always
    denote the same band: emerald for both, yellow for both or red for both;
    a score that is no number ([NaN]) is shown red. *)
Theorem score_colours_agree :
  forall score : JsNumber,
    ((getScoreHexColor score, getScoreTextColor score) = ("#10b981", "text-emerald-500") \/
     (getScoreHexColor score, getScoreTextColor score) = ("#eab308", "text-yellow-500") \/
     (getScoreHexColor score, getScoreTextColor score) = ("#ef4444", "text-red-500")) /\
    match score with
    | NaN => (getScoreHexColor score, getScoreTextColor score) = ("#ef4444", "text-red-500")
    | Num _ => True
    end.
Proof.
  intros score. split.
  - unfold getScoreHexColor, getScoreTextColor.
    destruct (number_ge score 80); [auto|].
    destruct (number_ge score 50); auto.
  - destruct score; [reflexivity|exact I].
Qed.

(** X12: the bands are monotone in the score: of two scores the higher one
    is never shown in a lower band (red below yellow below emerald). *)
Theorem score_colour_monotone :
  forall p q : QArith_base.Q,
    QArith_base.Qle p q ->
    (getScoreHexColor (Num p) = "#10b981" -> getScoreHexColor (Num q) = "#10b981") /\
    (getScoreHexColor (Num q) = "#ef4444" -> getScoreHexColor (Num p) = "#ef4444") /\
    (getScoreHexColor (Num p) = "#eab308" -> getScoreHexColor (Num q) <> "#ef4444").
Proof.
  intros p q Hpq. unfold getScoreHexColor.
  pose proof (number_ge_mono p q 80 Hpq) as H80.
  pose proof (number_ge_mono p q 50 Hpq) as H50.
  destruct (number_ge (Num p) 80) eqn:Hp80.
  - rewrite (H80 eq_refl). repeat split; intros; congruence.
  - destruct (number_ge (Num p) 50) eqn:Hp50.
    + rewrite (H50 eq_refl).
      destruct (number_ge (Num q) 80); repeat split; intros; congruence.
    + destruct (number_ge (Num q) 80); [repeat split; intros; congruence|].
      destruct (number_ge (Num q) 50); repeat split; intros; congruence.
Qed.

(** ** Overlapping requests that the allowance covers *)

Lemma issued_cons (p : Proc) (pool : list Proc) :
  issued (p :: pool) = ((if is_issued p then 1 else 0) + issued pool)%nat.
Proof. unfold issued. cbn. destruct (is_issued p); reflexivity. Qed.

Lemma issued_insert (pool : list Proc) (i : nat) (p p' : Proc) :
  pool !! i = Some p ->
  (issued (<[i := p']> pool) + (if is_issued p then 1 else 0)
   = issued pool + (if is_issued p' then 1 else 0))%nat.
Proof.
  intros Hi. pose proof (lookup_lt_Some _ _ _ Hi) as Hlt.
  rewrite (insert_take_drop pool i p' Hlt).
  rewrite <- (take_drop_middle pool i p Hi) at 3.
  rewrite !issued_app, !issued_cons. lia.
Qed.

Lemma issued_below_length (pool : list Proc) (i : nat) (p : Proc) :
  pool !! i = Some p -> is_issued p = false -> (issued pool < length pool)%nat.
Proof.
  intros Hi Hp. rewrite <- (take_drop_middle pool i p Hi).
  rewrite issued_app, issued_cons, Hp, length_app. cbn [length].
  assert (Hle : forall l : list Proc, (issued l <= length l)%nat).
  { unfold issued. intros l. induction l as [|x l IH]; cbn; [lia|].
    destruct (is_issued x); cbn; lia. }
  pose proof (Hle (take i pool)). pose proof (Hle (drop (S i) pool)). lia.
Qed.

Lemma on_course_not_rejected (data secret : JsVal) (pool : list Proc) :
  Forall (on_course data secret) pool -> rejected pool = 0%nat.
Proof.
  unfold rejected. induction 1 as [|p pool Hp _ IH]; [reflexivity|].
  cbn. destruct p as [| |d|[r|e]]; cbn; try exact IH. discriminate Hp.
Qed.

Section AnySchedule.

Variable today : nat.
Variable env : Env.
Variable data secret : JsVal.
Hypothesis upstream_answers : provision_phase env = Returns data.
Hypothesis secret_present : get data "client_secret" = Returns secret.

Abbreviation tracked_step :=
  (proc_step (MessageTracking.hasRemainingMessages today)
     (MessageTracking.incrementMessageCount today) env).
Abbreviation tracked_pool_run :=
  (run (MessageTracking.hasRemainingMessages today)
     (MessageTracking.incrementMessageCount today) env).
Abbreviation counted store := (MessageTracking.usage_count store (caller_identifier env) today).

(** One step of one request keeps every request on course and the count
    equal to the start count plus the credentials issued, as long as the
    allowance covers the whole pool. *)
Lemma step_keeps_course (start : Z) (pool : list Proc) (store : gmap (string * nat) Z)
    (i : nat) (p : Proc) :
  Forall (on_course data secret) pool ->
  counted store = start + Z.of_nat (issued pool) ->
  start + Z.of_nat (length pool) <= caller_limit env ->
  pool !! i = Some p ->
  on_course data secret (fst (tracked_step p store)) /\
  counted (snd (tracked_step p store))
  = start + Z.of_nat (issued (<[i := fst (tracked_step p store)]> pool)).
Proof.
  intros Hall Hcount Hroom Hi.
  assert (Hp : on_course data secret p).
  { rewrite Forall_lookup in Hall. exact (Hall i p Hi). }
  destruct p as [| |d|result]; cbn [proc_step].
  - pose proof (issued_below_length pool i Started Hi eq_refl) as Hlt.
    pose proof (issued_insert pool i Started Checked Hi) as Hins. cbn in Hins.
    unfold check_phase, MessageTracking.hasRemainingMessages, mbind, Async_bind, mret,
      Async_ret, throw.
    cbn [allowed].
    assert (Hal : Z.ltb (counted store) (caller_limit env) = true) by (apply Z.ltb_lt; lia).
    rewrite Hal. cbn. split; [exact I|lia].
  - rewrite upstream_answers. cbn.
    pose proof (issued_insert pool i Checked (Provisioned data) Hi) as Hins. cbn in Hins.
    split; [reflexivity|lia].
  - cbn in Hp. subst d.
    pose proof (issued_insert pool i (Provisioned data) (Finished (Returns secret)) Hi)
      as Hins. cbn in Hins.
    unfold commit_phase, MessageTracking.incrementMessageCount, mbind, Async_bind, await.
    rewrite secret_present. cbn [fst snd]. split; [reflexivity|].
    unfold MessageTracking.usage_count at 1. rewrite lookup_insert_eq. cbn. lia.
  - cbn. cbn in Hp. subst result.
    pose proof (issued_insert pool i (Finished (Returns secret)) (Finished (Returns secret)) Hi)
      as Hins.
    split; [reflexivity|lia].
Qed.

Lemma run_keeps_course (start : Z) (schedule : list nat) :
  forall (pool : list Proc) (store : gmap (string * nat) Z),
    Forall (on_course data secret) pool ->
    counted store = start + Z.of_nat (issued pool) ->
    start + Z.of_nat (length pool) <= caller_limit env ->
    Forall (on_course data secret) (fst (tracked_pool_run schedule pool store)) /\
    counted (snd (tracked_pool_run schedule pool store))
    = start + Z.of_nat (issued (fst (tracked_pool_run schedule pool store))).
Proof.
  induction schedule as [|i schedule IH]; intros pool store Hall Hcount Hroom.
  - cbn. split; assumption.
  - cbn [run]. destruct (pool !! i) as [p|] eqn:Hi; [|apply IH; assumption].
    destruct (step_keeps_course start pool store i p Hall Hcount Hroom Hi) as [Hp' Hcount'].
    destruct (tracked_step p store) as [p' store']. cbn [fst snd] in *.
    apply IH.
    + apply Forall_insert; assumption.
    + exact Hcount'.
    + rewrite length_insert. exact Hroom.
Qed.

End AnySchedule.

Lemma run_length {St : Type}
    (hasRemainingMessages : string -> bool -> Z -> Async St Usage)
    (incrementMessageCount : string -> bool -> Z -> Async St unit)
    (env : Env) (schedule : list nat) :
  forall (pool : list Proc) (s : St),
    length (fst (run hasRemainingMessages incrementMessageCount env schedule pool s))
    = length pool.
Proof.
  induction schedule as [|i schedule IH]; intros pool s; [reflexivity|].
  cbn [run]. destruct (pool !! i) as [p|]; [|apply IH].
  destruct (proc_step _ _ _ p s) as [p' s']. rewrite IH. apply length_insert.
Qed.

Lemma issued_all (pool : list Proc) :
  Forall (fun p => is_issued p = true) pool -> issued pool = length pool.
Proof.
  unfold issued. induction 1 as [|p pool Hp _ IH]; [reflexivity|].
  cbn. rewrite Hp. cbn. rewrite IH. reflexivity.
Qed.

(** X13: requests of one caller that overlap in any way are never refused
    while the day's allowance covers all of them.  With the tracker of
    section 4.4 and an external call that delivers the credential, for n
    requests started at a count of at most L - n and advanced in any order,
    none ends with an error, every one that has ended holds the credential,
    the count has grown by exactly the number of credentials issued, and
    once all have ended, all n credentials are issued. *)
Theorem covered_requests_are_never_refused :
  forall (today : nat) (env : Env) (data secret : JsVal)
         (schedule : list nat) (store : gmap (string * nat) Z) (n : nat),
    provision_phase env = Returns data ->
    get data "client_secret" = Returns secret ->
    MessageTracking.usage_count store (caller_identifier env) today + Z.of_nat n
    <= caller_limit env ->
    let result :=
      run (MessageTracking.hasRemainingMessages today)
        (MessageTracking.incrementMessageCount today) env
        schedule (replicate n Started) store in
    rejected (fst result) = 0%nat /\
    Forall (on_course data secret) (fst result) /\
    MessageTracking.usage_count (snd result) (caller_identifier env) today
    = MessageTracking.usage_count store (caller_identifier env) today
      + Z.of_nat (issued (fst result)) /\
    (Forall (fun p => exists r, p = Finished r) (fst result) -> issued (fst result) = n).
Proof.
  intros today env data secret schedule store n Hprov Hsecret Hroom result.
  destruct (run_keeps_course today env data secret Hprov Hsecret
              (MessageTracking.usage_count store (caller_identifier env) today)
              schedule (replicate n Started) store) as [Hall Hcount].
  - apply Forall_replicate. exact I.
  - rewrite issued_replicate. cbn. lia.
  - rewrite length_replicate. exact Hroom.
  - split; [|split; [|split]].
    + apply (on_course_not_rejected data secret). exact Hall.
    + exact Hall.
    + exact Hcount.
    + intros Hended. rewrite issued_all.
      * subst result. rewrite run_length. apply length_replicate.
      * rewrite Forall_forall in *. intros p Hin.
        destruct (Hended p Hin) as [r ->]. specialize (Hall _ Hin). cbn in Hall.
        rewrite Hall. reflexivity.
Qed.

(** ** The limit of a signed-in user *)

(** X14: the plan the provider data resolve to decides the limit the quota
    check is asked about: for a signed-in user whose lookup delivers a
    well-formed user, the check is about the user id with the limit 20 when
    the precedence of organization, public and private metadata resolves to
    recruiter, and with the limit 5 otherwise. *)
Theorem signed_in_limit_follows_plan :
  forall (env : Env) (userId : string) (u : User) (answer : string -> bool -> Z -> Usage),
    auth_userId env = Some userId ->
    userId <> "" ->
    clerk_getUser env userId = Returns (user_value u) ->
    snd (createSession (recording_check answer) recording_commit env []) !! 0%nat
    = Some (CheckCall userId false
              match resolve_by_precedence u with
              | recruiter => 20
              | free => 5
              end).
Proof.
  intros env userId u answer Hauth Hne Hget.
  assert (Htruthy : truthy_str (auth_userId env) = true).
  { rewrite Hauth. cbn. destruct (String.eqb_spec userId ""); [contradiction|reflexivity]. }
  rewrite createSession_first_call.
  unfold caller_limit, caller_plan, caller_identifier, caller_isGuest.
  rewrite Htruthy, Hauth. cbn.
  rewrite (getUserPlan_user_value _ _ u Hget).
  destruct (resolve_by_precedence u); reflexivity.
Qed.

(** ** The request to the session API *)

(** X15: [createSession] consults [fetch] about one request only: the POST
    to the chatkit sessions address that carries the API key as bearer
    token, the workflow id, and as user the signed-in user id or, for a
    guest, a fresh id made of "guest_", the clock and the random text from
    its eighth character on.  Two [fetch] functions that agree on this
    request give the same result. *)
Theorem createSession_request :
  forall (St : Type) (hasRemainingMessages : string -> bool -> Z -> Async St Usage)
         (incrementMessageCount : string -> bool -> Z -> Async St unit)
         (env : Env) (s : St) (f f' : Request -> Outcome Response),
    let guestId :=
      "guest_" +:+ num_to_string (Date_now env) +:+ "_" +:+
      substring_from_7 (Math_random_36 env) in
    let sessionUserId :=
      match auth_userId env with
      | Some userId => if String.eqb userId "" then guestId else userId
      | None => guestId
      end in
    let request :=
      MkRequest "https://api.openai.com/v1/chatkit/sessions" "POST"
        [("Content-Type", "application/json");
         ("Authorization", "Bearer " +:+ default "" (OPENAI_API_KEY env));
         ("OpenAI-Beta", "chatkit_beta=v1")]
        (JObj [("workflow", JObj [("id", JStr (default "" (WORKFLOW_ID env)))]);
               ("user", JStr sessionUserId)]) in
    f request = f' request ->
    createSession hasRemainingMessages incrementMessageCount (with_fetch f env) s
    = createSession hasRemainingMessages incrementMessageCount (with_fetch f' env) s.
Proof.
  intros St has incr env s f f' guestId sessionUserId request Hagree.
  rewrite !createSession_unfold.
  change (caller_identifier (with_fetch f env)) with (caller_identifier env).
  change (caller_isGuest (with_fetch f env)) with (caller_isGuest env).
  change (caller_limit (with_fetch f env)) with (caller_limit env).
  change (caller_plan (with_fetch f env)) with (caller_plan env).
  change (caller_identifier (with_fetch f' env)) with (caller_identifier env).
  change (caller_isGuest (with_fetch f' env)) with (caller_isGuest env).
  change (caller_limit (with_fetch f' env)) with (caller_limit env).
  change (caller_plan (with_fetch f' env)) with (caller_plan env).
  assert (Hid : caller_sessionUserId env = sessionUserId).
  { unfold caller_sessionUserId, sessionUserId, guestId, truthy_str.
    destruct (auth_userId env) as [userId|]; [|reflexivity].
    destruct (String.eqb userId ""); reflexivity. }
  assert (Hprov : provision_phase (with_fetch f env) = provision_phase (with_fetch f' env)).
  { unfold provision_phase, external_call.
    change (caller_sessionUserId (with_fetch f env)) with (caller_sessionUserId env).
    change (caller_sessionUserId (with_fetch f' env)) with (caller_sessionUserId env).
    cbn [OPENAI_API_KEY WORKFLOW_ID fetch with_fetch]. rewrite Hid.
    unfold session_request. fold request. rewrite Hagree. reflexivity. }
  rewrite Hprov. reflexivity.
Qed.

(** ** Memberships behind a recruiter membership *)

Lemma array_some_reaches_recruiter (ahead behind : list JsVal) (m : JsVal) :
  Forall (fun x => nullish x = false) ahead ->
  membership_is_recruiter m = Returns true ->
  array_some membership_is_recruiter (ahead ++ m :: behind) = Returns true.
Proof.
  intros Hahead Hm. induction Hahead as [|x ahead Hx _ IH]; cbn [app array_some].
  - rewrite Hm. reflexivity.
  - pose proof (membership_is_recruiter_outcome x) as Hout. rewrite Hx in Hout.
    destruct Hout as [b ->]. cbn. destruct b; [reflexivity|exact IH].
Qed.

(** X16: the memberships are read up to the first recruiter organization
    only.  When the delivered user is an object whose memberships hold a
    membership of a recruiter organization with no [null] or [undefined]
    entry ahead of it, the plan is recruiter whatever stands behind it in
    the list (malformed entries included) and whatever the user's own
    metadata are. *)
Theorem first_recruiter_membership_decides :
  forall (getUser : string -> Outcome JsVal) (userId : string)
         (props : list (string * JsVal)) (ahead behind : list JsVal) (m : JsVal),
    getUser userId = Returns (JObj props) ->
    lookup_prop "organizationMemberships" props = JArr (ahead ++ m :: behind) ->
    Forall (fun x => nullish x = false) ahead ->
    membership_is_recruiter m = Returns true ->
    getUserPlan getUser userId = Returns recruiter.
Proof.
  intros getUser userId props ahead behind m Hget Hprops Hahead Hm.
  unfold getUserPlan, getUserPlan_try. rewrite Hget. cbn. rewrite Hprops. cbn.
  rewrite (array_some_reaches_recruiter ahead behind m Hahead Hm). reflexivity.
Qed.

(** ** The further theorems at sample inputs *)

Lemma getMessageUsage_agrees_with_createSession_witness :
  getMessageUsage (MessageTracking.hasRemainingMessages a_day) env_guest store_guest_exhausted
  = (Returns (MkUsage false 0 3, free), store_guest_exhausted) /\
  createSession (MessageTracking.hasRemainingMessages a_day)
    (MessageTracking.incrementMessageCount a_day) env_guest store_guest_exhausted
  = (Throws (Error
       "Has alcanzado el límite de 3 mensajes diarios. Inicia sesión para obtener 5 mensajes al día."),
     store_guest_exhausted).
Proof.
  split; [vm_compute; reflexivity|].
  apply (getMessageUsage_agrees_with_createSession _
           (MessageTracking.hasRemainingMessages a_day)
           (MessageTracking.incrementMessageCount a_day) env_guest
           store_guest_exhausted store_guest_exhausted (MkUsage false 0 3) free);
    vm_compute; reflexivity.
Defined.

Lemma getMessageUsage_fails_with_check_witness :
  getMessageUsage unreachable_check env_guest []
  = (Throws (MkExn "Error" "connect ECONNREFUSED"), []) /\
  unreachable_check "203.0.113.7" true 3 []
  = (Throws (MkExn "Error" "connect ECONNREFUSED"), []).
Proof.
  split; [reflexivity|].
  apply (getMessageUsage_fails_with_check _ unreachable_check env_guest [] []).
  reflexivity.
Defined.

Lemma getCurrentPlan_agrees_with_getMessageUsage_witness :
  getCurrentPlan env_guest = Returns free.
Proof.
  destruct (getCurrentPlan_agrees_with_getMessageUsage env_guest) as (plan & Hplan & Hguest & _).
  rewrite Hplan, (Hguest eq_refl). reflexivity.
Defined.

Lemma provider_failure_means_free_limit_witness :
  lookup_failed (clerk_getUser env_provider_down "user_2abc") = true /\
  getCurrentPlan env_provider_down = Returns free /\
  snd (createSession (recording_check answer_fresh) recording_commit env_provider_down [])
    !! 0%nat
  = Some (CheckCall "user_2abc" false 5).
Proof.
  split; [reflexivity|].
  destruct (provider_failure_means_free_limit env_provider_down "user_2abc")
    as [Hplan Hcalls]; [reflexivity|discriminate|reflexivity|].
  split; [exact Hplan|]. apply (Hcalls answer_fresh).
Defined.

Lemma guest_is_checked_with_limit_three_witness :
  snd (createSession (recording_check answer_fresh) recording_commit env_guest []) !! 0%nat
  = Some (CheckCall "203.0.113.7" true 3).
Proof.
  apply (guest_is_checked_with_limit_three env_guest answer_fresh). reflexivity.
Defined.

Lemma createSession_counts_before_reading_secret_witness :
  (exists message,
      fst (createSession (MessageTracking.hasRemainingMessages a_day)
             (MessageTracking.incrementMessageCount a_day) env_null_body
             (∅ : gmap (string * nat) Z))
      = Throws (TypeError message)) /\
  MessageTracking.usage_count
    (snd (createSession (MessageTracking.hasRemainingMessages a_day)
            (MessageTracking.incrementMessageCount a_day) env_null_body
            (∅ : gmap (string * nat) Z))) "203.0.113.7" a_day = 1.
Proof.
  destruct (createSession_counts_before_reading_secret _
              (MessageTracking.hasRemainingMessages a_day)
              (MessageTracking.incrementMessageCount a_day) env_null_body
              (∅ : gmap (string * nat) Z) (∅ : gmap (string * nat) Z)
              (snd (MessageTracking.incrementMessageCount a_day "203.0.113.7" true 3
                      (∅ : gmap (string * nat) Z)))
              (MkUsage true 3 3) JNull)
    as (Hstate & _ & Hnull); try reflexivity.
  split; [apply Hnull; reflexivity|].
  rewrite Hstate. vm_compute. reflexivity.
Defined.

Lemma createSession_spares_fetch_witness :
  configured env_unconfigured = false /\
  createSession (MessageTracking.hasRemainingMessages a_day)
    (MessageTracking.incrementMessageCount a_day)
    (with_fetch (fun _ => Throws (TypeError "fetch failed")) env_unconfigured)
    (∅ : gmap (string * nat) Z)
  = createSession (MessageTracking.hasRemainingMessages a_day)
      (MessageTracking.incrementMessageCount a_day) env_unconfigured
      (∅ : gmap (string * nat) Z).
Proof.
  split; [reflexivity|].
  apply (createSession_spares_fetch _ (MessageTracking.hasRemainingMessages a_day)
           (MessageTracking.incrementMessageCount a_day) env_unconfigured).
  intros usage s1 _ _. reflexivity.
Defined.

Lemma POST_order_of_checks_witness :
  POST parse_sample env_fit_unreadable = Returns (error_reply "Failed to analyze job fit") /\
  POST parse_sample env_fit_unconfigured = Returns (error_reply "Server configuration error").
Proof.
  split.
  - apply (POST_order_of_checks parse_sample env_fit_unreadable). reflexivity.
  - apply (POST_order_of_checks parse_sample env_fit_unconfigured); reflexivity.
Defined.

Lemma score_colour_monotone_witness :
  QArith_base.Qle (QArith_base.Qmake 161 2) (QArith_base.inject_Z 92) /\
  getScoreHexColor (Num (QArith_base.inject_Z 92)) = "#10b981".
Proof.
  assert (Hle : QArith_base.Qle (QArith_base.Qmake 161 2) (QArith_base.inject_Z 92)).
  { unfold QArith_base.Qle. cbn. lia. }
  split; [exact Hle|].
  apply (score_colour_monotone (QArith_base.Qmake 161 2) (QArith_base.inject_Z 92) Hle).
  reflexivity.
Defined.

Lemma covered_requests_are_never_refused_witness :
  let result :=
    run (MessageTracking.hasRemainingMessages a_day)
      (MessageTracking.incrementMessageCount a_day) env_guest
      [0; 1; 2; 0; 1; 2; 0; 1; 2]%nat (replicate 3 Started) (∅ : gmap (string * nat) Z) in
  rejected (fst result) = 0%nat.
Proof.
  apply (covered_requests_are_never_refused a_day env_guest session_data (JStr "cs_live_1")
           [0; 1; 2; 0; 1; 2; 0; 1; 2]%nat (∅ : gmap (string * nat) Z) 3%nat);
    [reflexivity | reflexivity | vm_compute; discriminate].
Defined.

Lemma signed_in_limit_follows_plan_witness :
  snd (createSession (recording_check answer_fresh) recording_commit env_recruiter []) !! 0%nat
  = Some (CheckCall "user_2abc" false 20).
Proof.
  apply (signed_in_limit_follows_plan env_recruiter "user_2abc" user_in_recruiter_org
           answer_fresh); [reflexivity | discriminate | reflexivity].
Defined.

Lemma createSession_request_witness :
  createSession (MessageTracking.hasRemainingMessages a_day)
    (MessageTracking.incrementMessageCount a_day)
    (with_fetch (fun _ => Returns created) env_guest) (∅ : gmap (string * nat) Z)
  = createSession (MessageTracking.hasRemainingMessages a_day)
      (MessageTracking.incrementMessageCount a_day)
      (with_fetch (fun request =>
                     if String.eqb (req_method request) "POST" then Returns created
                     else Throws (TypeError "fetch failed")) env_guest)
      (∅ : gmap (string * nat) Z).
Proof.
  apply (createSession_request _ (MessageTracking.hasRemainingMessages a_day)
           (MessageTracking.incrementMessageCount a_day) env_guest).
  reflexivity.
Defined.

Lemma first_recruiter_membership_decides_witness :
  getUserPlan
    (fun _ => Returns (JObj [("organizationMemberships",
       JArr [JObj [];
             JObj [("organization",
                    JObj [("publicMetadata", JObj [("plan", JStr "recruiter")])])];
             JNull; JStr "n/a"])]))
    "user_2abc" = Returns recruiter.
Proof.
  apply (first_recruiter_membership_decides _ "user_2abc"
           [("organizationMemberships",
             JArr [JObj [];
                   JObj [("organization",
                          JObj [("publicMetadata", JObj [("plan", JStr "recruiter")])])];
                   JNull; JStr "n/a"])]
           [JObj []] [JNull; JStr "n/a"]
           (JObj [("organization",
                   JObj [("publicMetadata", JObj [("plan", JStr "recruiter")])])]));
    [reflexivity | reflexivity | repeat constructor | reflexivity].
Defined.

(** ** Credentials and counts *)

(** X17: every credential handed out is counted.  When [createSession]
    returns a value, the check had allowed the call, the commit ran after
    it and returned, and the final state is the one the commit left. *)
Theorem returned_credential_is_counted :
  forall (St : Type) (hasRemainingMessages : string -> bool -> Z -> Async St Usage)
         (incrementMessageCount : string -> bool -> Z -> Async St unit)
         (env : Env) (s s' : St) (v : JsVal),
    createSession hasRemainingMessages incrementMessageCount env s = (Returns v, s') ->
    exists usage s1,
      hasRemainingMessages (caller_identifier env) (caller_isGuest env) (caller_limit env) s
      = (Returns usage, s1) /\
      allowed usage = true /\
      upstream_ok env = true /\
      incrementMessageCount (caller_identifier env) (caller_isGuest env) (caller_limit env) s1
      = (Returns (), s').
Proof.
  intros St has incr env s s' v. rewrite createSession_unfold.
  destruct (has _ _ _ s) as [[usage|e] s1]; [|discriminate].
  destruct (allowed usage) eqn:Hal; [|discriminate].
  destruct (provision_phase env) as [data|e] eqn:Hprov; [|discriminate].
  destruct (incr _ _ _ s1) as [[[]|e] s2] eqn:Hincr; [|discriminate].
  intros [= _ <-]. exists usage, s1. repeat split; try assumption.
  apply (provision_phase_returns env data Hprov).
Qed.

(** X18: against the tracker of section 4.4 one [createSession] moves the
    caller's count of the day by at most one, moves it only from below the
    limit, and leaves the count of every other identity and day as it
    was. *)
Theorem createSession_count_step :
  forall (today : nat) (env : Env) (store : gmap (string * nat) Z),
    let store' :=
      snd (createSession (MessageTracking.hasRemainingMessages today)
             (MessageTracking.incrementMessageCount today) env store) in
    let count := MessageTracking.usage_count store (caller_identifier env) today in
    let count' := MessageTracking.usage_count store' (caller_identifier env) today in
    (count' = count \/ count' = count + 1 /\ count < caller_limit env) /\
    (forall (identity : string) (day : nat),
        (identity, day) <> (caller_identifier env, today) ->
        MessageTracking.usage_count store' identity day
        = MessageTracking.usage_count store identity day).
Proof.
  intros today env store store' count count'. subst store' count count'.
  rewrite createSession_tracked.
  destruct (Z.ltb _ _) eqn:Hlt; [|split; [left|]; reflexivity].
  destruct (provision_phase env); [|split; [left|]; reflexivity].
  cbn [snd]. split.
  - right. split; [|apply Z.ltb_lt; exact Hlt].
    unfold MessageTracking.usage_count at 1. rewrite lookup_insert_eq. reflexivity.
  - intros identity day Hother. unfold MessageTracking.usage_count at 1.
    rewrite lookup_insert_ne by congruence. reflexivity.
Qed.

Lemma returned_credential_is_counted_witness :
  exists usage s1,
    MessageTracking.hasRemainingMessages a_day (caller_identifier env_guest)
      (caller_isGuest env_guest) (caller_limit env_guest) (∅ : gmap (string * nat) Z)
    = (Returns usage, s1) /\
    allowed usage = true /\
    upstream_ok env_guest = true /\
    MessageTracking.incrementMessageCount a_day (caller_identifier env_guest)
      (caller_isGuest env_guest) (caller_limit env_guest) s1
    = (Returns (),
       snd (createSession (MessageTracking.hasRemainingMessages a_day)
              (MessageTracking.incrementMessageCount a_day) env_guest
              (∅ : gmap (string * nat) Z))).
Proof.
  apply (returned_credential_is_counted _ (MessageTracking.hasRemainingMessages a_day)
           (MessageTracking.incrementMessageCount a_day) env_guest
           (∅ : gmap (string * nat) Z) _ (JStr "cs_live_1")).
  vm_compute. reflexivity.
Defined.

Lemma createSession_count_step_witness :
  MessageTracking.usage_count
    (snd (createSession (MessageTracking.hasRemainingMessages a_day)
            (MessageTracking.incrementMessageCount a_day) env_guest store_guest_exhausted))
    "198.51.100.9" a_day
  = MessageTracking.usage_count store_guest_exhausted "198.51.100.9" a_day.
Proof.
  apply (createSession_count_step a_day env_guest store_guest_exhausted). discriminate.
Defined.
